(** * WTPA2 sample packer / unpacker (wtpa2.py)

    A shallow embedding of the [WTPA2] class of [wtpa2.py] (a Python 2
    program) and the properties of its archive format: a header with two
    magics and a bitmap of occupied slots, followed by slots of 512 KiB that
    hold a big-endian frame count and the 8-bit mono frames of one sample.

    Bytes are integers in [0, 256); a Python 2 [str] and a [bytearray] are
    lists of bytes.  Files are sparse: a finite map from offsets to bytes, a
    size and a position.  The object's attributes, the console and the
    destination directory make up the state that the methods thread. *)

From stdpp Require Import gmap strings list sorting list_numbers pretty.
From Stdlib Require Import ZArith Lia Ascii.

Local Open Scope Z_scope.

(** * The program *)

(** ** Bytes and Python sequences *)

(** A Python 2 string literal as its bytes. *)
Definition bytes_of_string (s : string) : list Z :=
  (λ c, Z.of_N (Ascii.N_of_ascii c)) <$> String.list_ascii_of_string s.

(** [l[a:b]] for [0 <= a <= b]: bounds past the end are clipped. *)
Definition slice {A} (a b : nat) (l : list A) : list A :=
  take (b - a)%nat (drop a l).

(** [l[a:b] = v] on a bytearray, for [0 <= a <= b]: the elements from [a] up
    to [b] are replaced by all of [v], whatever its length, so the array
    grows or shrinks by [length v - (b - a)]. *)
Definition set_slice {A} (a b : nat) (v l : list A) : list A :=
  take a l ++ v ++ drop b l.

(** [struct.pack('>I', n)]: four bytes, most significant first. *)
Definition be32 (n : Z) : list Z :=
  [Z.land (Z.shiftr n 24) 255; Z.land (Z.shiftr n 16) 255;
   Z.land (Z.shiftr n 8) 255; Z.land n 255].

(** The value of four big-endian bytes. *)
Definition be32_value (b0 b1 b2 b3 : Z) : Z :=
  Z.lor (Z.shiftl b0 24) (Z.lor (Z.shiftl b1 16) (Z.lor (Z.shiftl b2 8) b3)).

(** ** Files *)

(** A file opened in binary mode: bytes never written inside the size read
    as zero (a seek past the end followed by a write leaves a hole). *)
Record file := File {
  f_data : gmap Z Z;
  f_size : Z;
  f_pos : Z
}.

Definition empty_file : file := File ∅ 0 0.

Fixpoint write_bytes (d : gmap Z Z) (p : Z) (bs : list Z) : gmap Z Z :=
  match bs with
  | [] => d
  | b :: bs' => write_bytes (<[p := b]> d) (p + 1) bs'
  end.

Definition byte_at (f : file) (i : Z) : Z := default 0 (f_data f !! i).

(** [f.write(bs)]: at the position, extending the file when needed. *)
Definition file_write (bs : list Z) (f : file) : file :=
  let n := Z.of_nat (length bs) in
  File (write_bytes (f_data f) (f_pos f) bs)
       (if decide (n = 0) then f_size f else Z.max (f_size f) (f_pos f + n))
       (f_pos f + n).

(** How many bytes [f.read(n)] returns: fewer than [n] at the end. *)
Definition read_count (n : Z) (f : file) : Z :=
  Z.max 0 (Z.min n (f_size f - f_pos f)).

(** [f.read(n)]: the bytes and the file with its position advanced. *)
Definition file_read (n : Z) (f : file) : list Z * file :=
  let k := read_count n f in
  (byte_at f <$> seqZ (f_pos f) k, File (f_data f) (f_size f) (f_pos f + k)).

(** [f.seek(p)] *)
Definition file_seek (p : Z) (f : file) : file :=
  File (f_data f) (f_size f) p.

(** ** Sample files and the file system *)

(** What [aifc.open(path)] gives for a sample file: the parameters of its
    COMM chunk and the sound data. *)
Record aiff := Aiff {
  sampwidth : Z;
  nchannels : Z;
  framerate : Z;
  nframes : Z;
  frames : list Z
}.

(** [s.readframes(n)] on a freshly opened sample. *)
Definition readframes (s : aiff) (n : Z) : list Z :=
  take (Z.to_nat (n * sampwidth s * nchannels s)) (frames s).

(** A sample file as [aifc] writes it from the frame count, one byte per
    frame. *)
Definition aiff_wf (s : aiff) : Prop :=
  0 ≤ nframes s < 2 ^ 32 ∧
  Z.of_nat (length (frames s)) = nframes s * sampwidth s * nchannels s ∧
  Forall (λ b, 0 ≤ b < 256) (frames s).

(** [aifc.open(path)] either raises [aifc.Error] or returns a reader. *)
Inductive decoded :=
  | NotAIFF
  | Sample (s : aiff).

(** A path of the file system: a regular file, a directory with the entries
    [os.listdir] returns (in the order it returns them), or anything else
    that exists (neither [isfile] nor [isdir]). *)
#[warnings="-register-all"]
Inductive node :=
  | RegFile (d : decoded)
  | Directory (entries : list (string * node))
  | Special (d : decoded).

(** [os.path.join(path, f)] (posixpath) for a relative [f]. *)
Definition ends_with_slash (s : string) : bool :=
  match last (String.list_ascii_of_string s) with
  | Some c => bool_decide (c = "/"%char)
  | None => false
  end.

Definition path_join (path f : string) : string :=
  if bool_decide (path = "") || ends_with_slash path
  then path +:+ f
  else path +:+ "/" +:+ f.

(** ** The state the methods thread *)

(** The lines the program prints, by kind, with the values they format. *)
Inductive msg :=
  | DoesNotExistSkipping (p : string)
  | ProcessingDirectory (p : string)
  | ProcessingFile (p : string)
  | SkippedSampleWidth (w : Z)
  | SkippedChannels (c : Z)
  | SkippedTooLong (n limit : Z)
  | WarningSampleRate (r : Z)
  | OkWroteSample (slot : Z)
  | SkippedNotAIFF
  | ErrorDoesNotExist (p : string)
  | ReadingFromFile (p : string)
  | ReadingFromDrive (p : string)
  | ErrorNotADrive (p : string)
  | ReadingFromDevice (p : string)
  | ErrorNotADevice (p : string)
  | ErrorCreatingDirectory (p : string)
  | ErrorNotADirectory (p : string)
  | ErrorWTPANotFound
  | ErrorSampleDataNotFound
  | WritingSample (slot : Z) (p : string).

Global Instance msg_eq_dec : EqDecision msg.
Proof. solve_decision. Defined.

(** A sample file [unpack] writes: the path and what it hands to [aifc]
    ([setnchannels], [setsampwidth], [setframerate], [setnframes],
    [writeframes]). *)
Record written_sample := WrittenSample {
  ws_path : string;
  ws_nchannels : Z;
  ws_sampwidth : Z;
  ws_framerate : Z;
  ws_nframes : Z;
  ws_frames : list Z
}.

(** The attributes of a [WTPA2] object, the console and the files written
    to the destination directory.  [outfile] is assigned by [pack] and
    [unpack] before anything uses it. *)
Record wtpa := Wtpa {
  num_samples : Z;
  toc_offset : Z;
  header : list Z;
  outfile : file;
  console : list msg;
  dest_files : list written_sample
}.

(** [WTPA2.__init__] *)
Definition init : wtpa :=
  Wtpa 0 16 (replicate 512 0) empty_file [] [].

Definition set_num_samples (n : Z) (st : wtpa) : wtpa :=
  Wtpa n (toc_offset st) (header st) (outfile st) (console st) (dest_files st).
Definition set_header (h : list Z) (st : wtpa) : wtpa :=
  Wtpa (num_samples st) (toc_offset st) h (outfile st) (console st) (dest_files st).
Definition set_outfile (f : file) (st : wtpa) : wtpa :=
  Wtpa (num_samples st) (toc_offset st) (header st) f (console st) (dest_files st).
Definition add_console (m : msg) (st : wtpa) : wtpa :=
  Wtpa (num_samples st) (toc_offset st) (header st) (outfile st)
       (console st ++ [m]) (dest_files st).
Definition add_dest_file (w : written_sample) (st : wtpa) : wtpa :=
  Wtpa (num_samples st) (toc_offset st) (header st) (outfile st)
       (console st) (dest_files st ++ [w]).

(** ** A state and exception monad *)

Inductive exn :=
  | IndexError
  | StructError
  | IOError.

Inductive result (A : Type) :=
  | Ok (a : A)
  | Raise (e : exn).
Global Arguments Ok {A} a.
Global Arguments Raise {A} e.

Definition M (A : Type) : Type := wtpa → result A * wtpa.

Definition ret {A} (a : A) : M A := λ st, (Ok a, st).
Definition raise {A} (e : exn) : M A := λ st, (Raise e, st).
Definition bind {A B} (c : M A) (k : A → M B) : M B :=
  λ st, match c st with
        | (Ok a, st') => k a st'
        | (Raise e, st') => (Raise e, st')
        end.
Definition gets {A} (f : wtpa → A) : M A := λ st, (Ok (f st), st).
Definition modify (f : wtpa → wtpa) : M unit := λ st, (Ok tt, f st).

(** stdpp's monad notations: [x ← c; k] and [c;; k]. *)
Global Instance M_ret : MRet M := @ret.
Global Instance M_bind : MBind M := λ A B k c, bind c k.

(** [for x in l: body(x)] *)
Fixpoint for_each {A} (l : list A) (body : A → M unit) : M unit :=
  match l with
  | [] => ret tt
  | x :: l' => body x;; for_each l' body
  end.

Definition print (m : msg) : M unit := modify (add_console m).

(** [l[i]]: negative indices count from the end. *)
Definition py_index {A} (l : list A) (i : Z) : option A :=
  if decide (0 ≤ i) then l !! Z.to_nat i
  else if decide (0 ≤ Z.of_nat (length l) + i)
       then l !! Z.to_nat (Z.of_nat (length l) + i)
       else None.

(** [l[i] = v] *)
Definition py_set_index {A} (l : list A) (i : Z) (v : A) : list A :=
  if decide (0 ≤ i) then <[Z.to_nat i := v]> l
  else <[Z.to_nat (Z.of_nat (length l) + i) := v]> l.

(** [self.header[i]], raising [IndexError] out of range. *)
Definition header_get (i : Z) : M Z :=
  h ← gets header;
  match py_index h i with
  | Some b => ret b
  | None => raise IndexError
  end.

(** [self.outfile.write(bs)] *)
Definition outfile_write (bs : list Z) : M unit :=
  modify (λ st, set_outfile (file_write bs (outfile st)) st).

(** [self.outfile.read(n)] *)
Definition outfile_read (n : Z) : M (list Z) :=
  λ st, let r := file_read n (outfile st) in (Ok r.1, set_outfile r.2 st).

(** [self.outfile.seek(p)] *)
Definition outfile_seek (p : Z) : M unit :=
  modify (λ st, set_outfile (file_seek p (outfile st)) st).

(** [self.outfile.seek(d, 1)]: relative to the position; a position before
    the start of the file is refused. *)
Definition outfile_seek_cur (d : Z) : M unit :=
  p ← gets (λ st, f_pos (outfile st));
  if decide (0 ≤ p + d) then outfile_seek (p + d) else raise IOError.

(** [struct.pack('>I', n)] *)
Definition struct_pack_I (n : Z) : M (list Z) :=
  if decide (0 ≤ n < 2 ^ 32) then ret (be32 n) else raise StructError.

(** [struct.unpack('>I', bs)[0]] *)
Definition struct_unpack_I (bs : list Z) : M Z :=
  match bs with
  | [b0; b1; b2; b3] => ret (be32_value b0 b1 b2 b3)
  | _ => raise StructError
  end.

(** ** The methods of [WTPA2] *)

(** [seek_to_slot]: past the header, then [slot] slots further. *)
Definition seek_to_slot (slot : Z) : M unit :=
  outfile_seek 512;;
  outfile_seek_cur (512 * 1024 * slot).

(** [sample_in_slot]: the byte [toc_offset + slot / 8] of the header is
    tested against [1 << slot]. *)
Definition sample_in_slot (slot : Z) : M bool :=
  off ← gets toc_offset;
  b ← header_get (off + slot / 8);
  if decide (Z.land b (Z.shiftl 1 slot) ≠ 0) then mret true else mret false.

(** The statement of [process_file] that records a sample in the bitmap:
    [self.header[self.toc_offset + self.num_samples / 8] |=
     1 << (self.num_samples % 8)]. *)
Definition mark_slot : M unit :=
  off ← gets toc_offset;
  n ← gets num_samples;
  b ← header_get (off + n / 8);
  modify (λ st, set_header
    (py_set_index (header st) (off + n / 8) (Z.lor b (Z.shiftl 1 (n mod 8)))) st).

(** [process_file], on what [aifc.open(path)] gives for the path. *)
Definition process_file (path : string) (d : decoded) : M unit :=
  print (ProcessingFile path);;
  match d with
  | NotAIFF => print SkippedNotAIFF
  | Sample s =>
      if decide (sampwidth s ≠ 1) then
        print (SkippedSampleWidth (sampwidth s))
      else if decide (nchannels s ≠ 1) then
        print (SkippedChannels (nchannels s))
      else if decide (nframes s > 512 * 1024) then
        print (SkippedTooLong (nframes s) (512 * 1024))
      else
        (if decide (framerate s ≠ 22050)
         then print (WarningSampleRate (framerate s))
         else mret tt);;
        n ← gets num_samples;
        print (OkWroteSample n);;
        mark_slot;;
        modify (λ st, set_num_samples (num_samples st + 1) st);;
        size ← struct_pack_I (nframes s);
        outfile_write size;;
        outfile_write (readframes s (nframes s));;
        outfile_seek_cur (512 * 1024 - nframes s - 4)
  end.

(** The order of [list.sort()] on names: byte by byte, a prefix first. *)
Definition name_le {A} (a b : string * A) : Prop := String.leb a.1 b.1.

Global Instance name_le_dec {A} : RelDecision (@name_le A).
Proof. intros a b. unfold name_le. apply _. Defined.

(** The entries of a listing that are regular files, with what [aifc.open]
    gives for each. *)
Definition regular_files (entries : list (string * node))
  : list (string * decoded) :=
  omap (λ e, match e.2 with RegFile d => Some (e.1, d) | _ => None end) entries.

(** The entries that are directories, each with the run of [process_dir]
    on it. *)
Definition subdirectories {B} (rec : string → node → B)
    (entries : list (string * node)) : list (string * B) :=
  omap (λ e, match e.2 with
             | Directory _ => Some (e.1, rec e.1 e.2)
             | _ => None
             end) entries.

(** [process_dir]: the files of the directory in sorted order, then its
    sub-directories in sorted order. *)
Fixpoint process_dir (path : string) (n : node) {struct n} : M unit :=
  match n with
  | Directory entries =>
      print (ProcessingDirectory path);;
      let files := merge_sort name_le (regular_files entries) in
      let dirs := merge_sort name_le
        (subdirectories (λ d c, process_dir (path_join path d) c) entries) in
      for_each files (λ f, process_file (path_join path f.1) f.2);;
      for_each dirs (λ d, d.2)
  | _ => mret tt
  end.

(** [pack], on the input paths with what the file system has at each
    ([None] when [os.path.exists] is false).  The output file is new. *)
Definition pack (infiles : list (string * option node)) : M unit :=
  modify (λ st, set_header (set_slice 0 3 (bytes_of_string "WTPA") (header st)) st);;
  modify (λ st, set_header (set_slice 4 7 (bytes_of_string "SAMP") (header st)) st);;
  modify (set_outfile empty_file);;
  outfile_seek 512;;
  for_each infiles (λ infile,
    match infile.2 with
    | Some (Directory entries) => process_dir infile.1 (Directory entries)
    | Some (RegFile d) | Some (Special d) => process_file infile.1 d
    | None => print (DoesNotExistSkipping infile.1)
    end);;
  outfile_seek 0;;
  h ← gets header;
  outfile_write h.

(** [platform.system()] *)
Inductive platform_system := Windows | Darwin | Linux | OtherSystem.

(** What the operating system says about a path. *)
Record path_info := PathInfo {
  p_exists : bool;
  p_isfile : bool;
  p_isdir : bool;
  p_isblk : bool
}.

(** The first part of [unpack]: the source path, or [""] when refused. *)
Definition check_src (sys : platform_system) (src : string) (i : path_info)
  : M string :=
  if negb (p_exists i) then
    print (ErrorDoesNotExist src);; mret ""
  else if p_isfile i then
    print (ReadingFromFile src);; mret src
  else
    match sys with
    | Windows =>
        if bool_decide (String.length src = 2%nat) && p_isdir i then
          print (ReadingFromDrive ("\\.\" +:+ src));; mret ("\\.\" +:+ src)
        else
          print (ErrorNotADrive src);; mret ""
    | Darwin | Linux =>
        if p_isblk i then
          print (ReadingFromDevice src);; mret src
        else
          print (ErrorNotADevice src);; mret ""
    | OtherSystem => mret src
    end.

(** The second part: the destination directory, or [""] when refused;
    [makedirs_ok] tells whether [os.makedirs] succeeds. *)
Definition check_dest (dest : string) (i : path_info) (makedirs_ok : bool)
  : M string :=
  if negb (p_exists i) then
    if makedirs_ok then mret dest
    else print (ErrorCreatingDirectory dest);; mret ""
  else if negb (p_isdir i) then
    print (ErrorNotADirectory dest);; mret ""
  else mret dest.

(** ["%03d.aiff" % x] for [0 <= x] *)
Definition sample_file_name (x : Z) : string :=
  let digits := pretty x in
  String.string_of_list_ascii
    (replicate (3 - String.length digits) "0"%char) +:+ digits +:+ ".aiff".

(** The body of the loop of [unpack] for slot [x]. *)
Definition unpack_slot (dest : string) (x : Z) : M unit :=
  present ← sample_in_slot x;
  if present : bool then
    seek_to_slot x;;
    let f := path_join dest (sample_file_name x) in
    bs ← outfile_read 4;
    size ← struct_unpack_I bs;
    print (WritingSample x f);;
    data ← outfile_read size;
    modify (add_dest_file (WrittenSample f 1 1 22050 size data))
  else mret tt.

(** [unpack]: [src_data] is what opening the source for reading gives. *)
Definition unpack (sys : platform_system) (src : string) (src_info : path_info)
    (src_data : file) (dest : string) (dest_info : path_info)
    (makedirs_ok : bool) (samples : Z) : M unit :=
  src' ← check_src sys src src_info;
  dest' ← check_dest dest dest_info makedirs_ok;
  if negb (bool_decide (src' = "") || bool_decide (dest' = "")) then
    modify (set_outfile (file_seek 0 src_data));;
    h ← outfile_read 512;
    modify (set_header h);;
    if bool_decide (slice 0 4 h ≠ bytes_of_string "WTPA") then
      print ErrorWTPANotFound
    else if bool_decide (slice 4 8 h ≠ bytes_of_string "SAMP") then
      print ErrorSampleDataNotFound
    else
      for_each (seqZ 0 samples) (unpack_slot dest')
  else mret tt.


(** * The notions the properties are stated with *)

(** ** The filter of [process_file], the bitmap and the invariant of [pack] *)

(** The samples [process_file] packs: one byte wide, mono, at most 512K
    frames. *)
Definition eligible (s : aiff) : Prop :=
  sampwidth s = 1 ∧ nchannels s = 1 ∧ nframes s ≤ 512 * 1024.

Global Instance eligible_dec s : Decision (eligible s).
Proof. unfold eligible. apply _. Defined.

(** The files [process_file] skips. *)
Definition skipped (d : decoded) : Prop :=
  match d with
  | NotAIFF => True
  | Sample s => ¬ eligible s
  end.

Global Instance skipped_dec d : Decision (skipped d).
Proof. destruct d; simpl; apply _. Defined.

(** The offset of slot [k] in the archive. *)
Definition slot_offset (k : Z) : Z := 512 + 512 * 1024 * k.

(** Bit [k mod 8] of byte [16 + k / 8] of a header. *)
Definition header_bit (h : list Z) (k : Z) : bool :=
  match h !! Z.to_nat (16 + k / 8) with
  | Some b => Z.testbit b (k mod 8)
  | None => false
  end.

(** What holds of the object while [pack] runs. *)
Record pack_inv (st : wtpa) : Prop := PackInv {
  inv_toc : toc_offset st = 16;
  inv_count : 0 ≤ num_samples st;
  inv_header : length (header st) = 514%nat;
  inv_pos : f_pos (outfile st) = slot_offset (num_samples st)
}.

(** The header after slot [n] is recorded. *)
Definition marked (h : list Z) (n : Z) : list Z :=
  alter (λ b, Z.lor b (Z.shiftl 1 (n mod 8))) (Z.to_nat (16 + n / 8)) h.

(** The header after the slots [n], ..., [n + len - 1] are recorded. *)
Definition mark_all (h : list Z) (n len : Z) : list Z :=
  foldl marked h (seqZ n len).

(** A byte. *)
Definition is_byte (b : Z) : Prop := 0 ≤ b < 256.

Global Instance is_byte_dec b : Decision (is_byte b).
Proof. unfold is_byte. apply _. Defined.

(** The header has [n] bytes. *)
Definition header_length (n : nat) (st : wtpa) : Prop := length (header st) = n.

(** The header of [pack] once both magics are assigned. *)
Definition magic_header : list Z :=
  set_slice 4 7 (bytes_of_string "SAMP")
    (set_slice 0 3 (bytes_of_string "WTPA") (replicate 512 0)).

(** The object when the loop of [pack] starts: the magics are in the
    header and the new output file is at offset 512. *)
Definition pack_start : wtpa :=
  set_outfile (file_seek 512 empty_file) (set_header magic_header init).

(** The line that tells why a file is skipped. *)
Definition skip_msg (d : decoded) : msg :=
  match d with
  | NotAIFF => SkippedNotAIFF
  | Sample s =>
      if decide (sampwidth s ≠ 1) then SkippedSampleWidth (sampwidth s)
      else if decide (nchannels s ≠ 1) then SkippedChannels (nchannels s)
      else SkippedTooLong (nframes s) (512 * 1024)
  end.

(** The lines printed for a packed sample that goes to slot [n]. *)
Definition accept_msgs (path : string) (s : aiff) (n : Z) : list msg :=
  ProcessingFile path ::
  (if decide (framerate s ≠ 22050) then [WarningSampleRate (framerate s)] else [])
  ++ [OkWroteSample n].

(** What a slot holds: the frame count, then the frames. *)
Definition payload (s : aiff) : list Z := be32 (nframes s) ++ frames s.

(** The state after a sample is packed. *)
Definition accept (path : string) (s : aiff) (st : wtpa) : wtpa :=
  Wtpa (num_samples st + 1) (toc_offset st)
       (marked (header st) (num_samples st))
       (file_seek (f_pos (outfile st) + 512 * 1024)
          (file_write (frames s) (file_write (be32 (nframes s)) (outfile st))))
       (console st ++ accept_msgs path s (num_samples st))
       (dest_files st).

(** The state with more lines on the console. *)
Definition add_lines (ms : list msg) (st : wtpa) : wtpa :=
  Wtpa (num_samples st) (toc_offset st) (header st) (outfile st)
       (console st ++ ms) (dest_files st).

(** A computation keeps a property of the state when the property holds
    after it, whether it returns or raises. *)
Definition keeps {A} (P : wtpa → Prop) (c : M A) : Prop :=
  ∀ st, P st → P (c st).2.

(** ** The steps of [pack] *)

(** What [pack] does for its inputs, one after the other: a line for a
    directory it enters, a run of [process_file] for a file, a line for a
    path that does not exist. *)
Inductive step :=
  | EnterDir (p : string)
  | VisitFile (p : string) (d : decoded)
  | Missing (p : string).

Definition run_step (s : step) : M unit :=
  match s with
  | EnterDir p => print (ProcessingDirectory p)
  | VisitFile p d => process_file p d
  | Missing p => print (DoesNotExistSkipping p)
  end.

(** The steps for a directory: itself, its files in the order of their
    names, then the steps of each sub-directory in the order of their
    names. *)
Fixpoint schedule (path : string) (n : node) {struct n} : list step :=
  match n with
  | Directory entries =>
      EnterDir path ::
      ((λ f, VisitFile (path_join path f.1) f.2)
         <$> merge_sort name_le (regular_files entries)) ++
      concat (snd <$> merge_sort name_le
        (subdirectories (λ d c, schedule (path_join path d) c) entries))
  | _ => []
  end.

(** The steps of [pack] for one input path, and for all of them. *)
Definition infile_steps (infile : string * option node) : list step :=
  match infile.2 with
  | Some (Directory entries) => schedule infile.1 (Directory entries)
  | Some (RegFile d) | Some (Special d) => [VisitFile infile.1 d]
  | None => [Missing infile.1]
  end.

Definition pack_steps (infiles : list (string * option node)) : list step :=
  concat (infile_steps <$> infiles).

(** The eligible samples among the steps, in the order [pack] meets them. *)
Definition packed_sample (s : step) : option aiff :=
  match s with
  | VisitFile _ (Sample a) => if decide (eligible a) then Some a else None
  | _ => None
  end.

Definition packed_samples (steps : list step) : list aiff :=
  omap packed_sample steps.

(** The samples of the steps are well formed. *)
Definition step_wf (s : step) : Prop :=
  match s with
  | VisitFile _ (Sample a) => aiff_wf a
  | _ => True
  end.

Global Instance aiff_wf_dec s : Decision (aiff_wf s).
Proof. unfold aiff_wf. apply _. Defined.

Global Instance step_wf_dec s : Decision (step_wf s).
Proof. destruct s as [|? []|]; cbn; apply _. Defined.

(** ** What [unpack] takes from a slot *)

(** The frame count stored at the start of slot [x]. *)
Definition stored_size (f : file) (x : Z) : Z :=
  be32_value (byte_at f (slot_offset x)) (byte_at f (slot_offset x + 1))
             (byte_at f (slot_offset x + 2)) (byte_at f (slot_offset x + 3)).

(** The bytes [unpack] takes for the sample of slot [x]: as many as the
    stored count says, from just after it, up to the end of the file. *)
Definition slot_data (f : file) (x : Z) : list Z :=
  (file_read (stored_size f x) (file_seek (slot_offset x + 4) f)).1.

(** The sample file written for slot [x]. *)
Definition extracted (dest : string) (f : file) (x : Z) : written_sample :=
  WrittenSample (path_join dest (sample_file_name x)) 1 1 22050
                (stored_size f x) (slot_data f x).

(** Whether the scan takes slot [x]: the presence test only finds the
    bits of the slots 0 to 7. *)
Definition found (h : list Z) (x : Z) : bool :=
  bool_decide (x < 8) && header_bit h x.

(** The file [f'] is [f] with bytes written at or after the position of
    [f] only, and with a position that is not before that of [f]. *)
Definition appended (f f' : file) : Prop :=
  f_pos f ≤ f_pos f' ∧ f_size f ≤ f_size f' ∧
  ∀ i, i < f_pos f → f_data f' !! i = f_data f !! i.


(** Two states with the same archive under way: they differ in the
    console at most. *)
Definition same_archive (st st' : wtpa) : Prop :=
  num_samples st = num_samples st' ∧ toc_offset st = toc_offset st' ∧
  header st = header st' ∧ outfile st = outfile st' ∧
  dest_files st = dest_files st'.

(** What the archive takes from a sample: the frame count and the
    frames. *)
Definition stored (a : aiff) : Z * list Z := (nframes a, frames a).

(** ** Inputs the properties are tried on *)

(** A mono 8-bit sample of three frames at 44100 Hz. *)
Definition fast_sample : aiff := Aiff 1 1 44100 3 [7; 8; 9].

(** A mono 8-bit sample file of one frame, the byte [b], at 22050 Hz. *)
Definition one_frame (b : Z) : decoded := Sample (Aiff 1 1 22050 1 [b]).

(** A directory with the files [b.aiff] and [a.aiff] and the
    sub-directory [z] that holds [c.aiff], as [os.listdir] may give it. *)
Definition example_dir : node :=
  Directory [("b.aiff", RegFile (one_frame 2));
             ("z", Directory [("c.aiff", RegFile (one_frame 3))]);
             ("a.aiff", RegFile (one_frame 1))].

(** A source that starts with [WTPA] but not with [WTPASAMP], a regular
    file, and a destination that is a directory. *)
Definition junk_archive : file :=
  file_write (bytes_of_string "WTPAJUNK") empty_file.
Definition regular_file_info : path_info := PathInfo true true false false.
Definition directory_info : path_info := PathInfo true false true false.


(** 513 input paths, each a mono 8-bit sample of one frame. *)
Definition many_samples : list (string * option node) :=
  (λ k, ("s.aiff", Some (RegFile (one_frame (k mod 256))))) <$> seqZ 0 513.

(** A mono 8-bit sample of 524288 frames, all zero. *)
Definition big_sample : aiff :=
  Aiff 1 1 22050 (512 * 1024) (replicate (Z.to_nat (512 * 1024)) 0).

(** Nine input paths, each a mono 8-bit sample of one frame: sample [k]
    holds the byte [k]. *)
Definition nine_samples : list (string * option node) :=
  (λ k, ("s.aiff", Some (RegFile (one_frame k)))) <$> seqZ 0 9.

(** The header of an archive with the slots 0 to 15 recorded. *)
Definition sixteen_marked : wtpa :=
  set_header (take 512 (mark_all magic_header 0 16)) init.

(** Inputs with nothing to pack: a missing path, a directory with a text
    file and an empty sub-directory, and a stereo sample. *)
Definition barren_inputs : list (string * option node) :=
  [("missing.aiff", None);
   ("d", Some (Directory [("notes.txt", RegFile NotAIFF);
                          ("empty", Directory [])]));
   ("stereo.aiff", Some (RegFile (Sample (Aiff 1 2 22050 2 [1; 2; 3; 4]))))].

(** 3985 input paths, each a mono 8-bit sample of one frame. *)
Definition too_many_samples : list (string * option node) :=
  (λ k, ("s.aiff", Some (RegFile (one_frame (k mod 256))))) <$> seqZ 0 3985.

(** An archive of exactly the header, with the bits of the slots 0 and 9
    set, and the count 0 in slot 0. *)
Definition two_bit_archive : file :=
  file_write [0; 0; 0; 0]
    (file_seek 512
       (file_write (<[17%nat := 2]> (<[16%nat := 1]> (take 512 magic_header)))
          empty_file)).

(** Ten input paths, each a mono 8-bit sample of one frame. *)
Definition ten_samples : list (string * option node) :=
  (λ k, ("s.aiff", Some (RegFile (one_frame k)))) <$> seqZ 0 10.


(** A source of the eight bytes [WTPASAMP] and nothing more *)
Definition magic_only_archive : file :=
  file_write (bytes_of_string "WTPASAMP") empty_file.

(** An archive of exactly the header, with the bit of slot 0 set. *)
Definition header_only_archive : file :=
  file_write (<[16%nat := 1]> (take 512 magic_header)) empty_file.

(** The entries of [example_dir], listed in another order. *)
Definition example_entries : list (string * node) :=
  [("b.aiff", RegFile (one_frame 2));
   ("z", Directory [("c.aiff", RegFile (one_frame 3))]);
   ("a.aiff", RegFile (one_frame 1))].

(** * The properties *)

(** ** Running the monad *)

Lemma run_bind {A B} (c : M A) (k : A → M B) st :
  (c ≫= k) st = match c st with
                | (Ok a, st') => k a st'
                | (Raise e, st') => (Raise e, st')
                end.
Proof. reflexivity. Qed.

Lemma run_ret {A} (a : A) st : mret (M := M) a st = (Ok a, st).
Proof. reflexivity. Qed.

Lemma run_print m st : print m st = (Ok tt, add_console m st).
Proof. reflexivity. Qed.

Lemma for_each_app {A} (l1 l2 : list A) (body : A → M unit) st :
  for_each (l1 ++ l2) body st = (for_each l1 body;; for_each l2 body) st.
Proof.
  revert st. induction l1 as [|x l1 IH]; intros st; simpl.
  - reflexivity.
  - rewrite !run_bind. destruct (body x st) as [[[]|e] st1]; [|reflexivity].
    rewrite IH. reflexivity.
Qed.

Lemma for_each_fmap {A B} (f : A → B) (l : list A) (body : B → M unit) :
  for_each (f <$> l) body = for_each l (λ x, body (f x)).
Proof.
  induction l as [|x l IH]; [reflexivity|].
  change (for_each (f <$> x :: l) body)
    with (body (f x);; for_each (f <$> l) body).
  rewrite IH. reflexivity.
Qed.

(** Induction on a file-system tree. *)
Lemma node_rect' (P : node → Type) :
  (∀ d, P (RegFile d)) →
  (∀ entries, (∀ i e, entries !! i = Some e → P e.2) → P (Directory entries)) →
  (∀ d, P (Special d)) →
  ∀ n, P n.
Proof.
  intros Hf Hd Hs. fix IH 1. intros [d|entries|d]; [apply Hf| |apply Hs].
  apply Hd. induction entries as [|[nm c] es IHes]; intros i e He.
  - discriminate.
  - destruct i as [|i]; simpl in He.
    + injection He as <-. apply IH.
    + eapply IHes, He.
Defined.

Lemma node_ind' (P : node → Prop) :
  (∀ d, P (RegFile d)) →
  (∀ entries, Forall (λ e, P e.2) entries → P (Directory entries)) →
  (∀ d, P (Special d)) →
  ∀ n, P n.
Proof.
  intros Hf Hd Hs. apply node_rect'; [exact Hf| |exact Hs].
  intros entries H. apply Hd, Forall_lookup. exact H.
Qed.

(** ** Stepping through monadic code *)

Lemma run_gets {A} (f : wtpa → A) st : gets f st = (Ok (f st), st).
Proof. reflexivity. Qed.

Lemma run_modify f st : modify f st = (Ok tt, f st).
Proof. reflexivity. Qed.

Lemma run_raise {A} e st : raise (A := A) e st = (Raise e, st).
Proof. reflexivity. Qed.

Lemma run_outfile_read n st :
  outfile_read n st =
    (Ok (file_read n (outfile st)).1, set_outfile (file_read n (outfile st)).2 st).
Proof. reflexivity. Qed.

Ltac mrun :=
  repeat (first [ rewrite run_bind | rewrite run_gets | rewrite run_modify
                | rewrite run_ret | rewrite run_print | rewrite run_raise ];
          cbv beta iota).

(** ** Files: what a write leaves *)

Lemma write_bytes_lookup bs : ∀ d p i,
  write_bytes d p bs !! i =
    if decide (p ≤ i < p + Z.of_nat (length bs))
    then bs !! Z.to_nat (i - p) else d !! i.
Proof.
  induction bs as [|b bs IH]; intros d p i; simpl.
  - case_decide; [lia|reflexivity].
  - rewrite IH. destruct (decide (i = p)) as [->|Hne].
    + rewrite Z.sub_diag. simpl. rewrite lookup_insert_eq.
      repeat case_decide; try lia; reflexivity.
    + rewrite lookup_insert_ne by congruence.
      repeat case_decide; try lia; try reflexivity.
      replace (Z.to_nat (i - p)) with (S (Z.to_nat (i - (p + 1)))) by lia.
      reflexivity.
Qed.

Lemma byte_at_write bs f i :
  byte_at (file_write bs f) i =
    if decide (f_pos f ≤ i < f_pos f + Z.of_nat (length bs))
    then default 0 (bs !! Z.to_nat (i - f_pos f)) else byte_at f i.
Proof.
  unfold byte_at, file_write. simpl. rewrite write_bytes_lookup.
  case_decide; reflexivity.
Qed.

Lemma byte_at_seek p f i : byte_at (file_seek p f) i = byte_at f i.
Proof. reflexivity. Qed.

Lemma file_read_length n f :
  Z.of_nat (length (file_read n f).1) = read_count n f.
Proof.
  unfold file_read. simpl. rewrite length_fmap, length_seqZ.
  unfold read_count. lia.
Qed.

Lemma file_read_lookup n f (j : nat) :
  Z.of_nat j < read_count n f →
  (file_read n f).1 !! j = Some (byte_at f (f_pos f + Z.of_nat j)).
Proof.
  intros Hj. unfold file_read. simpl.
  rewrite list_lookup_fmap, lookup_seqZ_lt by exact Hj. reflexivity.
Qed.

(** ** The bitmap *)

Lemma length_marked h n : length (marked h n) = length h.
Proof. apply length_alter. Qed.

Lemma mark_slot_ok st :
  toc_offset st = 16 → 0 ≤ num_samples st →
  (Z.to_nat (16 + num_samples st / 8) < length (header st))%nat →
  mark_slot st = (Ok tt, set_header (marked (header st) (num_samples st)) st).
Proof.
  intros Htoc Hn Hlen. unfold mark_slot, header_get. mrun. rewrite Htoc.
  assert (H0 : 0 ≤ 16 + num_samples st / 8)
    by (pose proof (Z.div_pos (num_samples st) 8); lia).
  unfold py_index. rewrite decide_True by exact H0.
  destruct (lookup_lt_is_Some_2 _ _ Hlen) as [b Hb]. rewrite Hb. mrun.
  f_equal. f_equal.
  unfold py_set_index. rewrite decide_True by exact H0.
  unfold marked. apply list_eq. intros i.
  destruct (decide (i = Z.to_nat (16 + num_samples st / 8))) as [->|Hne].
  - rewrite list_lookup_insert_eq by exact Hlen.
    rewrite list_lookup_alter_eq, Hb. reflexivity.
  - rewrite list_lookup_insert_ne, list_lookup_alter_ne by congruence.
    reflexivity.
Qed.

Lemma mark_slot_index_error st :
  toc_offset st = 16 → 0 ≤ num_samples st →
  (length (header st) ≤ Z.to_nat (16 + num_samples st / 8))%nat →
  mark_slot st = (Raise IndexError, st).
Proof.
  intros Htoc Hn Hlen. unfold mark_slot, header_get. mrun. rewrite Htoc.
  assert (H0 : 0 ≤ 16 + num_samples st / 8)
    by (pose proof (Z.div_pos (num_samples st) 8); lia).
  unfold py_index. rewrite decide_True by exact H0.
  rewrite lookup_ge_None_2 by exact Hlen. mrun. reflexivity.
Qed.

Lemma testbit_lor_shiftl_1 b m j :
  0 ≤ m → 0 ≤ j →
  Z.testbit (Z.lor b (Z.shiftl 1 m)) j = Z.testbit b j || bool_decide (j = m).
Proof.
  intros Hm Hj. rewrite Z.lor_spec, Z.shiftl_1_l, Z.pow2_bits_eqb by exact Hm.
  f_equal. destruct (Z.eqb_spec m j); case_bool_decide; congruence.
Qed.

(** Recording slot [n] sets its bit ... *)
Lemma header_bit_marked_eq h n :
  0 ≤ n → (Z.to_nat (16 + n / 8) < length h)%nat →
  header_bit (marked h n) n = true.
Proof.
  intros Hn Hlen. unfold header_bit, marked.
  destruct (lookup_lt_is_Some_2 _ _ Hlen) as [b Hb].
  rewrite list_lookup_alter_eq, Hb. simpl.
  pose proof (Z.mod_pos_bound n 8).
  rewrite testbit_lor_shiftl_1 by lia.
  rewrite bool_decide_eq_true_2 by reflexivity. apply orb_true_r.
Qed.

(** ... and leaves every other bit as it was. *)
Lemma header_bit_marked_ne h n k :
  0 ≤ n → 0 ≤ k → k ≠ n →
  header_bit (marked h n) k = header_bit h k.
Proof.
  intros Hn Hk Hne. unfold header_bit, marked.
  destruct (decide (Z.to_nat (16 + k / 8) = Z.to_nat (16 + n / 8))) as [He|He].
  - rewrite He, list_lookup_alter_eq.
    destruct (h !! Z.to_nat (16 + n / 8)) as [b|]; [simpl|reflexivity].
    pose proof (Z.mod_pos_bound n 8). pose proof (Z.mod_pos_bound k 8).
    rewrite testbit_lor_shiftl_1 by lia.
    rewrite bool_decide_eq_false_2; [apply orb_false_r|].
    intros Hm. apply Hne.
    pose proof (Z.div_pos n 8). pose proof (Z.div_pos k 8).
    rewrite (Z.div_mod k 8), (Z.div_mod n 8) by lia. lia.
  - rewrite list_lookup_alter_ne by congruence. reflexivity.
Qed.

(** ** One file *)

Lemma readframes_all s :
  aiff_wf s → sampwidth s = 1 → nchannels s = 1 →
  readframes s (nframes s) = frames s.
Proof.
  intros (_ & Hlen & _) Hw Hc. unfold readframes.
  apply take_ge. rewrite Hw, Hc in *. lia.
Qed.

(** A skipped file only prints two lines. *)
Lemma process_file_skip path d st :
  skipped d →
  process_file path d st =
    (Ok tt, add_console (skip_msg d) (add_console (ProcessingFile path) st)).
Proof.
  intros Hs. unfold process_file. mrun. destruct d as [|s]; [reflexivity|].
  simpl in Hs. unfold skip_msg, eligible in *.
  repeat case_decide; try reflexivity; exfalso; apply Hs; lia.
Qed.

(** An eligible sample is packed into the next slot, as long as the header
    has a byte for its bit. *)
Lemma process_file_accept path s st :
  eligible s → aiff_wf s →
  toc_offset st = 16 → 0 ≤ num_samples st → 0 ≤ f_pos (outfile st) →
  (Z.to_nat (16 + num_samples st / 8) < length (header st))%nat →
  process_file path (Sample s) st = (Ok tt, accept path s st).
Proof.
  intros (Hw & Hc & Hn) Hwf Htoc Hns Hpos Hlen.
  pose proof Hwf as (Hnf & Hfl & _).
  unfold process_file. mrun.
  rewrite !decide_False by lia.
  assert (Hrate : ∀ st0 : wtpa,
    (if decide (framerate s ≠ 22050)
     then print (WarningSampleRate (framerate s)) else mret tt) st0 =
    (Ok tt, Wtpa (num_samples st0) (toc_offset st0) (header st0) (outfile st0)
       (console st0 ++
          (if decide (framerate s ≠ 22050)
           then [WarningSampleRate (framerate s)] else []))
       (dest_files st0))).
  { intros [? ? ? ? c ?]. case_decide; mrun; unfold add_console; simpl;
      rewrite ?app_nil_r; reflexivity. }
  rewrite run_bind, Hrate. mrun. simpl.
  rewrite mark_slot_ok by (simpl; assumption). mrun. simpl.
  unfold struct_pack_I.
  rewrite (decide_True (P := 0 ≤ nframes s < 2 ^ 32)) by exact Hnf. mrun.
  unfold outfile_write, outfile_seek_cur. mrun. simpl.
  rewrite readframes_all by assumption.
  rewrite Hw, Hc, !Z.mul_1_r in Hfl.
  match goal with
  | |- context [decide (0 ≤ ?p)] =>
      replace p with (f_pos (outfile st) + 512 * 1024) by lia
  end.
  rewrite decide_True by lia.
  unfold outfile_seek. mrun.
  unfold accept, accept_msgs, set_outfile, set_num_samples, set_header,
    add_console. simpl.
  do 2 f_equal. rewrite <- !app_assoc. reflexivity.
Qed.

(** Past the end of the header: with 3984 samples packed, the next
    eligible sample makes [process_file] raise [IndexError]. *)
Lemma process_file_index_error path s st :
  eligible s → pack_inv st → 3984 ≤ num_samples st →
  (process_file path (Sample s) st).1 = Raise IndexError.
Proof.
  intros (Hw & Hc & Hn) [Htoc Hns Hh Hp] Hcap.
  unfold process_file. mrun. rewrite !decide_False by lia.
  rewrite run_bind.
  assert (Hidx : ∀ st0, toc_offset st0 = 16 → header st0 = header st →
                 num_samples st0 = num_samples st →
                 mark_slot st0 = (Raise IndexError, st0)).
  { intros st0 H1 H2 H3. apply mark_slot_index_error; [exact H1|lia|].
    rewrite H2, H3, Hh.
    assert (498 ≤ num_samples st / 8) by (apply Z.div_le_lower_bound; lia).
    lia. }
  case_decide; mrun; rewrite Hidx by (cbn; assumption || reflexivity);
    reflexivity.
Qed.

Lemma length_be32 n : length (be32 n) = 4%nat.
Proof. reflexivity. Qed.

Lemma length_payload s :
  Z.of_nat (length (payload s)) = 4 + Z.of_nat (length (frames s)).
Proof. unfold payload. rewrite length_app, length_be32. lia. Qed.

(** After a sample is packed its payload is in the file, from the position
    the file had; the rest of the file is as before. *)
Lemma accept_byte_at path s st i :
  byte_at (outfile (accept path s st)) i =
    if decide (f_pos (outfile st) ≤ i
               < f_pos (outfile st) + Z.of_nat (length (payload s)))
    then default 0 (payload s !! Z.to_nat (i - f_pos (outfile st)))
    else byte_at (outfile st) i.
Proof.
  unfold accept. cbn [outfile]. rewrite byte_at_seek, !byte_at_write.
  rewrite length_payload. cbn [file_write f_pos]. rewrite length_be32.
  unfold payload.
  repeat case_decide; try lia; try reflexivity.
  - rewrite lookup_app_r by (rewrite length_be32; lia).
    rewrite length_be32. do 2 f_equal. lia.
  - rewrite lookup_app_l by (rewrite length_be32; lia). reflexivity.
Qed.

Lemma accept_size path s st :
  f_size (outfile (accept path s st)) =
    Z.max (f_size (outfile st))
          (f_pos (outfile st) + Z.of_nat (length (payload s))).
Proof.
  rewrite length_payload. unfold accept. cbn [outfile file_seek f_size].
  unfold file_write. cbn [f_size f_pos]. rewrite length_be32.
  rewrite (decide_False (P := Z.of_nat 4 = 0)) by lia.
  case_decide; lia.
Qed.

(** Every step of [pack] leaves a header of 514 bytes, a counter that
    matches the position in the file, and the offset of the bitmap. *)
Lemma accept_pack_inv path s st : pack_inv st → pack_inv (accept path s st).
Proof.
  intros [Htoc Hn Hh Hp]. split; cbn [accept toc_offset num_samples header outfile].
  - exact Htoc.
  - lia.
  - rewrite length_marked. exact Hh.
  - cbn [file_seek f_pos]. rewrite Hp. unfold slot_offset. lia.
Qed.

Lemma skipped_iff d :
  skipped d ↔
  d = NotAIFF ∨
  ∃ s, d = Sample s ∧
       (sampwidth s ≠ 1 ∨ nchannels s ≠ 1 ∨ nframes s > 512 * 1024).
Proof.
  destruct d as [|s]; simpl.
  - split; [left; reflexivity|trivial].
  - unfold eligible. split.
    + intros Hs. right. exists s. split; [reflexivity|].
      destruct (decide (sampwidth s = 1)); [|left; assumption].
      destruct (decide (nchannels s = 1)); [|right; left; assumption].
      right; right. lia.
    + intros [Hd|(s' & Hd & Hs)]; [discriminate|]. injection Hd as <-. lia.
Qed.

(** C10: a file that [process_file] skips (not an AIFF, a sample width
    other than 1, a channel count other than 1, or more than 512K frames)
    leaves the header with its bitmap, the counter of packed samples and
    the output file with its position as they were; only two lines are
    printed. *)
Theorem process_file_skip_frame path d st :
  d = NotAIFF ∨
  (∃ s, d = Sample s ∧
        (sampwidth s ≠ 1 ∨ nchannels s ≠ 1 ∨ nframes s > 512 * 1024)) →
  ∃ st', process_file path d st = (Ok tt, st') ∧
    header st' = header st ∧
    num_samples st' = num_samples st ∧
    outfile st' = outfile st ∧
    f_pos (outfile st') = f_pos (outfile st) ∧
    toc_offset st' = toc_offset st ∧
    dest_files st' = dest_files st ∧
    console st' = console st ++ [ProcessingFile path; skip_msg d].
Proof.
  intros Hs. apply skipped_iff in Hs.
  eexists. split; [apply process_file_skip, Hs|].
  cbn [add_console header num_samples outfile toc_offset dest_files console].
  rewrite <- app_assoc. repeat split; reflexivity.
Qed.

Lemma process_file_skip_frame_witness :
  ∃ st', process_file "stereo.aiff" (Sample (Aiff 1 2 22050 2 [1; 2; 3; 4])) init
           = (Ok tt, st') ∧
    header st' = header init ∧
    num_samples st' = num_samples init ∧
    outfile st' = outfile init ∧
    f_pos (outfile st') = f_pos (outfile init) ∧
    toc_offset st' = toc_offset init ∧
    dest_files st' = dest_files init ∧
    console st' = console init ++
      [ProcessingFile "stereo.aiff";
       skip_msg (Sample (Aiff 1 2 22050 2 [1; 2; 3; 4]))].
Proof.
  apply (process_file_skip_frame "stereo.aiff"
           (Sample (Aiff 1 2 22050 2 [1; 2; 3; 4])) init).
  right. eexists. split; [reflexivity|]. right; left. simpl. lia.
Defined.

(** C8: an eligible sample whose frame rate is not 22050 is packed all
    the same: it takes the next slot (the counter grows by one, the bit of
    the slot is set, the payload is in the file at the slot's offset and
    the position moves to the next slot), and the only extra line is a
    warning, not a skip. *)
Theorem process_file_rate_warning path s st :
  eligible s → aiff_wf s → framerate s ≠ 22050 →
  pack_inv st → num_samples st < 3984 →
  ∃ st', process_file path (Sample s) st = (Ok tt, st') ∧
    num_samples st' = num_samples st + 1 ∧
    header_bit (header st') (num_samples st) = true ∧
    console st' = console st ++
      [ProcessingFile path; WarningSampleRate (framerate s);
       OkWroteSample (num_samples st)] ∧
    (∀ j : nat, (j < length (payload s))%nat →
       payload s !! j =
         Some (byte_at (outfile st') (slot_offset (num_samples st) + Z.of_nat j))) ∧
    f_pos (outfile st') = slot_offset (num_samples st + 1).
Proof.
  intros Hel Hwf Hrate Hinv Hcap.
  pose proof Hinv as [Htoc Hn Hh Hp].
  assert (Hidx : (Z.to_nat (16 + num_samples st / 8) < length (header st))%nat).
  { rewrite Hh. assert (num_samples st / 8 < 498)
      by (apply Z.div_lt_upper_bound; lia).
    pose proof (Z.div_pos (num_samples st) 8). lia. }
  exists (accept path s st). split.
  { apply process_file_accept; try assumption.
    rewrite Hp. unfold slot_offset. lia. }
  split; [reflexivity|]. split.
  { cbn [accept header]. apply header_bit_marked_eq; assumption. }
  split.
  { cbn [accept console]. unfold accept_msgs.
    rewrite decide_True by assumption. reflexivity. }
  split.
  - intros j Hj. rewrite accept_byte_at, Hp.
    rewrite decide_True by lia.
    replace (Z.to_nat (slot_offset (num_samples st) + Z.of_nat j
                       - slot_offset (num_samples st))) with j by lia.
    destruct (lookup_lt_is_Some_2 _ _ Hj) as [b Hb]. rewrite Hb. reflexivity.
  - apply (inv_pos _ (accept_pack_inv path s st Hinv)).
Qed.

Lemma process_file_rate_warning_witness :
  ∃ st', process_file "fast.aiff" (Sample fast_sample)
           (set_outfile (file_seek 512 empty_file)
              (set_header (replicate 514 0) init)) = (Ok tt, st') ∧
    num_samples st' = 0 + 1 ∧
    header_bit (header st') 0 = true ∧
    console st' = [] ++
      [ProcessingFile "fast.aiff"; WarningSampleRate 44100; OkWroteSample 0] ∧
    (∀ j : nat, (j < length (payload fast_sample))%nat →
       payload fast_sample !! j =
         Some (byte_at (outfile st') (slot_offset 0 + Z.of_nat j))) ∧
    f_pos (outfile st') = slot_offset (0 + 1).
Proof.
  apply (process_file_rate_warning "fast.aiff" fast_sample
           (set_outfile (file_seek 512 empty_file)
              (set_header (replicate 514 0) init))).
  - unfold eligible. simpl. lia.
  - unfold aiff_wf. simpl. split; [lia|]. split; [reflexivity|].
    repeat constructor; lia.
  - simpl. lia.
  - split; reflexivity || (simpl; lia).
  - simpl. lia.
Defined.

(** ** The presence test of [unpack] *)

Lemma land_pow2 b x :
  0 ≤ x → Z.land b (2 ^ x) = if Z.testbit b x then 2 ^ x else 0.
Proof.
  intros Hx. apply Z.bits_inj'. intros j Hj.
  rewrite Z.land_spec, Z.pow2_bits_eqb by exact Hx.
  destruct (Z.eqb_spec x j) as [->|Hne].
  - destruct (Z.testbit b j) eqn:Hb.
    + rewrite Z.pow2_bits_true by exact Hj. reflexivity.
    + rewrite Z.bits_0. reflexivity.
  - rewrite andb_false_r. destruct (Z.testbit b x).
    + rewrite Z.pow2_bits_false by congruence. reflexivity.
    + rewrite Z.bits_0. reflexivity.
Qed.

Lemma testbit_byte_high b x : 0 ≤ b < 256 → 8 ≤ x → Z.testbit b x = false.
Proof.
  intros Hb Hx. destruct (decide (b = 0)) as [->|Hnz]; [apply Z.bits_0|].
  apply Z.bits_above_log2; [lia|].
  assert (Z.log2 b < 8) by (apply Z.log2_lt_pow2; lia). lia.
Qed.

(** Below slot 8 the test reads the bit that [process_file] sets. *)
Lemma sample_in_slot_low x st :
  toc_offset st = 16 → 0 ≤ x < 8 → (16 < length (header st))%nat →
  sample_in_slot x st = (Ok (header_bit (header st) x), st).
Proof.
  intros Htoc Hx Hlen. unfold sample_in_slot, header_get. mrun.
  rewrite Htoc, (Z.div_small x 8) by lia. unfold py_index, header_bit.
  rewrite decide_True by lia. rewrite (Z.div_small x 8), Z.mod_small by lia.
  destruct (lookup_lt_is_Some_2 (header st) (Z.to_nat (16 + 0)) Hlen) as [b Hb].
  rewrite Hb. mrun. rewrite Z.shiftl_1_l, land_pow2 by lia.
  assert (2 ^ x ≠ 0) by (apply Z.pow_nonzero; lia).
  destruct (Z.testbit b x); case_decide; try reflexivity; congruence.
Qed.

(** From slot 8 on it tests a byte against [1 << slot], which is 256 or
    more: the answer is no, whatever the bitmap says. *)
Lemma sample_in_slot_high x st b :
  toc_offset st = 16 → 8 ≤ x →
  header st !! Z.to_nat (16 + x / 8) = Some b → 0 ≤ b < 256 →
  sample_in_slot x st = (Ok false, st).
Proof.
  intros Htoc Hx Hb Hbyte. unfold sample_in_slot, header_get. mrun.
  rewrite Htoc. unfold py_index.
  assert (0 ≤ x / 8) by (apply Z.div_pos; lia).
  rewrite decide_True by lia. rewrite Hb. mrun.
  rewrite Z.shiftl_1_l, land_pow2 by lia.
  rewrite testbit_byte_high by assumption.
  rewrite decide_False by (intros Hne; apply Hne; reflexivity). reflexivity.
Qed.

(** C3: slot 8 is recorded in the bitmap as bit 0 of byte 17, and the
    presence test then says that slot 8 holds no sample. *)
Theorem sample_in_slot_misses_slot_8 :
  let st := (mark_slot (set_num_samples 8 init)).2 in
  header st !! 17%nat = Some 1 ∧
  header_bit (header st) 8 = true ∧
  (sample_in_slot 8 st).1 = Ok false.
Proof. repeat split. Qed.

(** ** Sorting and what it leaves related *)

(** Two lists related element by element stay so when both are sorted by
    orders that agree on related elements. *)
Section merge_sort_rel.
Context {A B : Type} (RA : relation A) (RB : relation B).
Context `{!RelDecision RA, !RelDecision RB}.
Context (R : A → B → Prop).
Hypothesis compat :
  ∀ a1 b1 a2 b2, R a1 b1 → R a2 b2 → (RA a1 a2 ↔ RB b1 b2).

Lemma list_merge_Forall2 l1 l2 :
  Forall2 R l1 l2 → ∀ k1 k2, Forall2 R k1 k2 →
  Forall2 R (list_merge RA l1 k1) (list_merge RB l2 k2).
Proof.
  induction 1 as [|a b l1 l2 Hab Hl IHl]; intros k1 k2 Hk.
  - rewrite !list_merge_nil_l. exact Hk.
  - induction Hk as [|c d k1 k2 Hcd Hk IHk].
    + rewrite !list_merge_nil_r. constructor; assumption.
    + rewrite !list_merge_cons.
      destruct (decide (RA a c)) as [Hac|Hac];
        destruct (decide (RB b d)) as [Hbd|Hbd].
      * constructor; [assumption|]. apply IHl. constructor; assumption.
      * exfalso. apply Hbd. apply (compat a b c d); assumption.
      * exfalso. apply Hac. apply (compat a b c d); assumption.
      * constructor; assumption.
Qed.

Let stack_rel : list (option (list A)) → list (option (list B)) → Prop :=
  Forall2 (option_Forall2 (Forall2 R)).

Lemma merge_list_to_stack_Forall2 s1 s2 :
  stack_rel s1 s2 → ∀ l1 l2, Forall2 R l1 l2 →
  stack_rel (merge_list_to_stack RA s1 l1) (merge_list_to_stack RB s2 l2).
Proof.
  induction 1 as [|o1 o2 s1 s2 Ho Hs IH]; intros l1 l2 Hl; simpl.
  - repeat constructor. exact Hl.
  - destruct Ho as [k1 k2 Hk|].
    + constructor; [constructor|]. apply IH.
      apply list_merge_Forall2; assumption.
    + constructor; [constructor; exact Hl|exact Hs].
Qed.

Lemma merge_stack_Forall2 s1 s2 :
  stack_rel s1 s2 → Forall2 R (merge_stack RA s1) (merge_stack RB s2).
Proof.
  induction 1 as [|o1 o2 s1 s2 Ho Hs IH]; simpl; [constructor|].
  destruct Ho as [k1 k2 Hk|]; [|exact IH].
  apply list_merge_Forall2; assumption.
Qed.

Lemma merge_sort_aux_Forall2 l1 l2 :
  Forall2 R l1 l2 → ∀ s1 s2, stack_rel s1 s2 →
  Forall2 R (merge_sort_aux RA s1 l1) (merge_sort_aux RB s2 l2).
Proof.
  induction 1 as [|a b l1 l2 Hab Hl IH]; intros s1 s2 Hs; simpl.
  - apply merge_stack_Forall2, Hs.
  - apply IH, merge_list_to_stack_Forall2; [exact Hs|].
    constructor; [exact Hab|constructor].
Qed.

Lemma merge_sort_Forall2 l1 l2 :
  Forall2 R l1 l2 → Forall2 R (merge_sort RA l1) (merge_sort RB l2).
Proof. intros Hl. apply merge_sort_aux_Forall2; [exact Hl|constructor]. Qed.
End merge_sort_rel.

Global Instance name_le_total {A} : Total (@name_le A).
Proof.
  intros a b. unfold name_le.
  destruct (String.leb_total a.1 b.1) as [H|H]; rewrite H; [left|right]; exact I.
Qed.

(** ** The order in which [process_dir] visits a tree *)

Lemma for_each_concat_rel (l1 : list (string * M unit))
    (l2 : list (string * list step)) :
  Forall2 (λ a b, a.1 = b.1 ∧ ∀ st, a.2 st = for_each b.2 run_step st) l1 l2 →
  ∀ st, for_each l1 (λ d, d.2) st = for_each (concat (snd <$> l2)) run_step st.
Proof.
  induction 1 as [|a b l1 l2 [_ Hab] Hl IH]; intros st; [reflexivity|].
  cbn [for_each fmap list_fmap concat]. rewrite for_each_app, !run_bind, Hab.
  destruct (for_each b.2 run_step st) as [[[]|e] st1]; [apply IH|reflexivity].
Qed.

Lemma subdirectories_Forall2 {B C} (R : string → B → C → Prop)
    (f : string → node → B) (g : string → node → C) entries :
  Forall (λ e, R e.1 (f e.1 e.2) (g e.1 e.2)) entries →
  Forall2 (λ a b, a.1 = b.1 ∧ R a.1 a.2 b.2)
    (subdirectories f entries) (subdirectories g entries).
Proof.
  induction 1 as [|[nm c] es He _ IH]; [constructor|].
  unfold subdirectories in *. cbn [omap list_omap] in *. simpl in *.
  destruct c; try exact IH. constructor; [split; [reflexivity|exact He]|exact IH].
Qed.

Lemma name_le_compat {B C} (R : string * B → string * C → Prop) :
  (∀ a b, R a b → a.1 = b.1) →
  ∀ a1 b1 a2 b2, R a1 b1 → R a2 b2 → (name_le a1 a2 ↔ name_le b1 b2).
Proof.
  intros HR a1 b1 a2 b2 H1 H2. unfold name_le.
  rewrite (HR _ _ H1), (HR _ _ H2). reflexivity.
Qed.

(** [process_dir] runs the steps of its schedule, in order. *)
Lemma process_dir_schedule n : ∀ path st,
  process_dir path n st = for_each (schedule path n) run_step st.
Proof.
  induction n as [d|entries IH|d] using node_ind'; intros path st;
    [reflexivity| |reflexivity].
  cbn [process_dir schedule for_each run_step]. rewrite !run_bind, run_print.
  cbv beta iota. rewrite for_each_app, for_each_fmap. cbn [run_step].
  rewrite !run_bind.
  destruct (for_each (merge_sort name_le (regular_files entries)) _ _)
    as [[[]|e] st1]; [|reflexivity].
  apply for_each_concat_rel.
  apply (merge_sort_Forall2 name_le name_le).
  - apply name_le_compat. intros a b [H _]. exact H.
  - apply (subdirectories_Forall2
      (λ _ (a : M unit) b, ∀ st, a st = for_each b run_step st)).
    eapply Forall_impl; [exact IH|]. intros [nm c] Hc. simpl. apply Hc.
Qed.

Lemma for_each_rel {B} (F : string → B → M unit)
    (l1 : list (string * M unit)) (l2 : list (string * B)) :
  Forall2 (λ a b, a.1 = b.1 ∧ a.2 = F a.1 b.2) l1 l2 →
  for_each l1 (λ d, d.2) = for_each l2 (λ d, F d.1 d.2).
Proof.
  induction 1 as [|a b l1 l2 [Hn Hab] Hl IH]; [reflexivity|].
  cbn [for_each]. rewrite IH, Hab, Hn. reflexivity.
Qed.

(** C7: [process_dir] on a directory first runs [process_file] on the
    regular files of the directory, in the order of their names, and only
    then runs [process_dir] on each sub-directory, in the order of their
    names.  For a directory with [b.aiff], [a.aiff] and [z/c.aiff] the
    slots go to [a.aiff], [b.aiff] and [c.aiff], in this order. *)
Theorem process_dir_files_then_subdirectories :
  (∀ path entries, ∃ files dirs,
     files ≡ₚ regular_files entries ∧ Sorted name_le files ∧
     dirs ≡ₚ subdirectories (λ _ c, c) entries ∧ Sorted name_le dirs ∧
     process_dir path (Directory entries) =
       (print (ProcessingDirectory path);;
        for_each files (λ f, process_file (path_join path f.1) f.2);;
        for_each dirs (λ d, process_dir (path_join path d.1) d.2))) ∧
  console (process_dir "d" example_dir init).2 =
    [ProcessingDirectory "d";
     ProcessingFile "d/a.aiff"; OkWroteSample 0;
     ProcessingFile "d/b.aiff"; OkWroteSample 1;
     ProcessingDirectory "d/z";
     ProcessingFile "d/z/c.aiff"; OkWroteSample 2].
Proof.
  split; [|reflexivity].
  intros path entries.
  exists (merge_sort name_le (regular_files entries)),
         (merge_sort name_le (subdirectories (λ _ c, c) entries)).
  split; [apply merge_sort_Permutation|].
  split; [apply (Sorted_merge_sort name_le)|].
  split; [apply merge_sort_Permutation|].
  split; [apply (Sorted_merge_sort name_le)|].
  cbn [process_dir].
  rewrite (for_each_rel (λ d c, process_dir (path_join path d) c) _
             (merge_sort name_le (subdirectories (λ _ c, c) entries)));
    [reflexivity|].
  apply (merge_sort_Forall2 name_le name_le).
  - apply name_le_compat. intros a b [H _]. exact H.
  - apply (subdirectories_Forall2 (λ nm (a : M unit) c,
             a = process_dir (path_join path nm) c)).
    apply Forall_forall. reflexivity.
Qed.

(** ** [unpack]: the checks before the scan *)

(** The first eight bytes are the two magics exactly when both tests of
    [unpack] pass. *)
Lemma magic_split (h : list Z) :
  slice 0 8 h = bytes_of_string "WTPASAMP" ↔
  slice 0 4 h = bytes_of_string "WTPA" ∧ slice 4 8 h = bytes_of_string "SAMP".
Proof.
  destruct h as [|b0 [|b1 [|b2 [|b3 [|b4 [|b5 [|b6 [|b7 h]]]]]]]];
    cbn; (split; [intros H; try discriminate H|intros [H1 H2]; try discriminate]).
  - injection H as -> -> -> -> -> -> -> ->. split; reflexivity.
  - injection H1 as -> -> -> ->. injection H2 as -> -> -> ->. reflexivity.
Qed.

(** [unpack] once the source and the destination are accepted: the
    header is read, the magics are tested, the slots are scanned. *)
Lemma unpack_run sys src si data dest di mk samples st src' st1 dest' st2 :
  check_src sys src si st = (Ok src', st1) →
  check_dest dest di mk st1 = (Ok dest', st2) →
  src' ≠ "" → dest' ≠ "" →
  unpack sys src si data dest di mk samples st =
    (if bool_decide (slice 0 4 (file_read 512 (file_seek 0 data)).1
                     ≠ bytes_of_string "WTPA") then
       print ErrorWTPANotFound
     else if bool_decide (slice 4 8 (file_read 512 (file_seek 0 data)).1
                          ≠ bytes_of_string "SAMP") then
       print ErrorSampleDataNotFound
     else for_each (seqZ 0 samples) (unpack_slot dest'))
      (set_header (file_read 512 (file_seek 0 data)).1
         (set_outfile (file_read 512 (file_seek 0 data)).2 st2)).
Proof.
  intros Hsrc Hdest Hs Hd. unfold unpack.
  rewrite run_bind, Hsrc. cbv beta iota. rewrite run_bind, Hdest. cbv beta iota.
  rewrite !bool_decide_eq_false_2 by assumption. cbn [orb negb].
  rewrite run_bind, run_modify. cbv beta iota.
  rewrite run_bind, run_outfile_read. cbv beta iota.
  rewrite run_bind, run_modify. cbv beta iota. reflexivity.
Qed.

(** The checks of [unpack] only print. *)
Lemma check_src_run sys src i st :
  ∃ s' ms, check_src sys src i st = (Ok s', add_lines ms st).
Proof.
  assert (Hnil : st = add_lines [] st).
  { destruct st. unfold add_lines. cbn. rewrite app_nil_r. reflexivity. }
  unfold check_src.
  destruct (p_exists i), (p_isfile i), sys, (p_isblk i), (p_isdir i);
    cbn [negb andb]; try destruct (bool_decide (String.length src = 2%nat));
    cbn [andb];
    first [ eexists _, [_]; reflexivity
          | eexists _, []; rewrite <- Hnil; reflexivity ].
Qed.

Lemma check_dest_run dest i mk st :
  ∃ d' ms, check_dest dest i mk st = (Ok d', add_lines ms st).
Proof.
  assert (Hnil : st = add_lines [] st).
  { destruct st. unfold add_lines. cbn. rewrite app_nil_r. reflexivity. }
  unfold check_dest. destruct (p_exists i), (p_isdir i), mk; cbn [negb];
    first [ eexists _, [_]; reflexivity
          | eexists _, []; rewrite <- Hnil; reflexivity ].
Qed.

(** Whatever the checks say, a source whose first eight bytes are not
    [WTPASAMP] makes [unpack] return without a sample file written. *)
Lemma unpack_bad_magic sys src si data dest di mk samples st :
  slice 0 8 (file_read 512 (file_seek 0 data)).1 ≠ bytes_of_string "WTPASAMP" →
  (unpack sys src si data dest di mk samples st).1 = Ok tt ∧
  dest_files (unpack sys src si data dest di mk samples st).2 = dest_files st.
Proof.
  intros Hne. rewrite magic_split in Hne. unfold unpack.
  destruct (check_src_run sys src si st) as (src' & ms1 & Hsrc).
  rewrite run_bind, Hsrc. cbv beta iota.
  destruct (check_dest_run dest di mk (add_lines ms1 st)) as (dest' & ms2 & Hdest).
  rewrite run_bind, Hdest. cbv beta iota.
  destruct (negb _); [|split; reflexivity].
  rewrite run_bind, run_modify. cbv beta iota.
  rewrite run_bind, run_outfile_read. cbv beta iota.
  rewrite run_bind, run_modify. cbv beta iota.
  cbn [set_outfile outfile].
  case_bool_decide as Hw; [split; reflexivity|].
  case_bool_decide as Hsm; [split; reflexivity|].
  exfalso. apply Hne. split; first [assumption | apply dec_stable; assumption].
Qed.

(** C6: [unpack] reads 512 bytes of header from a source it accepts.
    When the first eight bytes are not [WTPASAMP] it prints an error and
    returns: no slot is read (the file stays at the end of the header) and
    no sample file is written; this last part holds also when the source
    or the destination is refused.  When the first eight bytes are
    [WTPASAMP], it runs the scan over the slots. *)
Theorem unpack_magic_check sys src si data dest di mk samples
    st src' st1 dest' st2 :
  check_src sys src si st = (Ok src', st1) →
  check_dest dest di mk st1 = (Ok dest', st2) →
  src' ≠ "" → dest' ≠ "" →
  let r := file_read 512 (file_seek 0 data) in
  let st3 := set_header r.1 (set_outfile r.2 st2) in
  (slice 0 8 r.1 ≠ bytes_of_string "WTPASAMP" →
     ∃ err, (err = ErrorWTPANotFound ∨ err = ErrorSampleDataNotFound) ∧
       unpack sys src si data dest di mk samples st
         = (Ok tt, add_console err st3) ∧
       dest_files (add_console err st3) = dest_files st ∧
       f_pos (outfile (add_console err st3)) = Z.of_nat (length r.1) ∧
       f_pos (outfile (add_console err st3)) ≤ 512) ∧
  (slice 0 8 r.1 = bytes_of_string "WTPASAMP" →
     unpack sys src si data dest di mk samples st
       = for_each (seqZ 0 samples) (unpack_slot dest') st3) ∧
  (∀ sys' si' di' mk',
     slice 0 8 r.1 ≠ bytes_of_string "WTPASAMP" →
     (unpack sys' src si' data dest di' mk' samples st).1 = Ok tt ∧
     dest_files (unpack sys' src si' data dest di' mk' samples st).2
       = dest_files st).
Proof.
  intros Hsrc Hdest Hs Hd r st3.
  pose proof (unpack_run sys src si data dest di mk samples st
                src' st1 dest' st2 Hsrc Hdest Hs Hd) as Hrun.
  fold r in Hrun. fold st3 in Hrun.
  assert (Hpos : f_pos (outfile st3) = Z.of_nat (length r.1) ∧
                 f_pos (outfile st3) ≤ 512).
  { cbn [st3 set_header set_outfile outfile]. unfold r.
    rewrite file_read_length. unfold file_read, read_count. cbn. lia. }
  split; [|split].
  - intros Hne.
    destruct (unpack_bad_magic sys src si data dest di mk samples st Hne)
      as [_ Hfiles].
    rewrite Hrun in Hfiles |- *. rewrite magic_split in Hne.
    case_bool_decide as Hw.
    + exists ErrorWTPANotFound. rewrite run_print in Hfiles |- *.
      split; [left; reflexivity|]. split; [reflexivity|].
      split; [exact Hfiles|exact Hpos].
    + case_bool_decide as Hsm.
      * exists ErrorSampleDataNotFound. rewrite run_print in Hfiles |- *.
        split; [right; reflexivity|]. split; [reflexivity|].
        split; [exact Hfiles|exact Hpos].
      * exfalso. apply Hne. split; first [assumption | apply dec_stable; assumption].
  - intros Heq. apply magic_split in Heq as [Hw Hsm]. rewrite Hrun.
    rewrite !bool_decide_eq_false_2; [reflexivity| |];
      intros Hne; apply Hne; assumption.
  - intros sys' si' di' mk' Hne. apply unpack_bad_magic, Hne.
Qed.

Lemma unpack_magic_check_witness :
  let r := file_read 512 (file_seek 0 junk_archive) in
  let st3 := set_header r.1
    (set_outfile r.2 (add_console (ReadingFromFile "a.bin") init)) in
  (slice 0 8 r.1 ≠ bytes_of_string "WTPASAMP" →
     ∃ err, (err = ErrorWTPANotFound ∨ err = ErrorSampleDataNotFound) ∧
       unpack Linux "a.bin" regular_file_info junk_archive
              "out" directory_info true 512 init
         = (Ok tt, add_console err st3) ∧
       dest_files (add_console err st3) = dest_files init ∧
       f_pos (outfile (add_console err st3)) = Z.of_nat (length r.1) ∧
       f_pos (outfile (add_console err st3)) ≤ 512) ∧
  (slice 0 8 r.1 = bytes_of_string "WTPASAMP" →
     unpack Linux "a.bin" regular_file_info junk_archive
            "out" directory_info true 512 init
       = for_each (seqZ 0 512) (unpack_slot "out") st3) ∧
  (∀ sys' si' di' mk',
     slice 0 8 r.1 ≠ bytes_of_string "WTPASAMP" →
     (unpack sys' "a.bin" si' junk_archive "out" di' mk' 512 init).1 = Ok tt ∧
     dest_files (unpack sys' "a.bin" si' junk_archive "out" di' mk' 512 init).2
       = dest_files init).
Proof.
  apply (unpack_magic_check Linux "a.bin" regular_file_info junk_archive
           "out" directory_info true 512 init
           "a.bin" (add_console (ReadingFromFile "a.bin") init)
           "out" (add_console (ReadingFromFile "a.bin") init)).
  - reflexivity.
  - reflexivity.
  - discriminate.
  - discriminate.
Defined.

(** ** [unpack]: one slot *)

Lemma seek_to_slot_ok x st :
  0 ≤ x →
  seek_to_slot x st = (Ok tt, set_outfile (file_seek (slot_offset x) (outfile st)) st).
Proof.
  intros Hx. unfold seek_to_slot, outfile_seek_cur, outfile_seek. mrun.
  cbn [set_outfile outfile file_seek f_pos].
  rewrite decide_True by lia. mrun. reflexivity.
Qed.

Lemma file_read_4 f :
  f_pos f + 4 ≤ f_size f →
  file_read 4 f =
    ([byte_at f (f_pos f); byte_at f (f_pos f + 1);
      byte_at f (f_pos f + 2); byte_at f (f_pos f + 3)],
     File (f_data f) (f_size f) (f_pos f + 4)).
Proof.
  intros Hsz. unfold file_read, read_count.
  replace (Z.max 0 (Z.min 4 (f_size f - f_pos f))) with 4 by lia.
  f_equal. unfold seqZ. change (Z.to_nat 4) with 4%nat.
  cbn [seq fmap list_fmap]. repeat (f_equal; try lia).
Qed.

(** A slot that the presence test accepts and whose first four bytes are
    in the file is written out, with whatever count it stores. *)
Lemma unpack_slot_present dest x st :
  0 ≤ x → sample_in_slot x st = (Ok true, st) →
  slot_offset x + 4 ≤ f_size (outfile st) →
  ∃ st', unpack_slot dest x st = (Ok tt, st') ∧
    dest_files st' = dest_files st ++ [extracted dest (outfile st) x] ∧
    header st' = header st ∧ toc_offset st' = toc_offset st ∧
    f_data (outfile st') = f_data (outfile st) ∧
    f_size (outfile st') = f_size (outfile st).
Proof.
  intros Hx Hin Hsz. unfold unpack_slot. rewrite run_bind, Hin. cbv beta iota.
  rewrite run_bind, seek_to_slot_ok by exact Hx. cbv beta iota.
  rewrite run_bind, run_outfile_read. cbn [set_outfile outfile].
  rewrite file_read_4 by exact Hsz. cbn [fst snd struct_unpack_I].
  mrun. rewrite run_outfile_read. cbv beta iota. mrun.
  eexists. split; [reflexivity|].
  cbn. repeat split; reflexivity.
Qed.

Lemma unpack_slot_absent dest x st :
  sample_in_slot x st = (Ok false, st) → unpack_slot dest x st = (Ok tt, st).
Proof. intros Hin. unfold unpack_slot. rewrite run_bind, Hin. reflexivity. Qed.



(** ** What every run of [pack] keeps *)

Section keeps.
Context (P : wtpa → Prop).

Lemma keeps_bind {A B} (c : M A) (k : A → M B) :
  keeps P c → (∀ a, keeps P (k a)) → keeps P (c ≫= k).
Proof.
  intros Hc Hk st HP. rewrite run_bind. specialize (Hc st HP).
  destruct (c st) as [[a|e] st1]; [apply Hk|]; exact Hc.
Qed.

Lemma keeps_ret {A} (a : A) : keeps P (mret a).
Proof. intros st HP. exact HP. Qed.

Lemma keeps_raise {A} e : keeps P (raise (A := A) e).
Proof. intros st HP. exact HP. Qed.

Lemma keeps_gets {A} (f : wtpa → A) : keeps P (gets f).
Proof. intros st HP. exact HP. Qed.

Lemma keeps_modify f : (∀ st, P st → P (f st)) → keeps P (modify f).
Proof. intros Hf st HP. apply Hf, HP. Qed.

Lemma keeps_for_each {A} (l : list A) (body : A → M unit) :
  (∀ x, keeps P (body x)) → keeps P (for_each l body).
Proof.
  intros Hb. induction l as [|x l IH]; [apply keeps_ret|].
  apply keeps_bind; [apply Hb|intros _; exact IH].
Qed.

Lemma keeps_ext {A} (c1 c2 : M A) :
  (∀ st, c1 st = c2 st) → keeps P c2 → keeps P c1.
Proof. intros He Hc st HP. rewrite He. apply Hc, HP. Qed.
End keeps.

Lemma length_py_set_index {A} (l : list A) i v :
  length (py_set_index l i v) = length l.
Proof. unfold py_set_index. case_decide; apply length_insert. Qed.

Ltac keeps_step :=
  first [ apply keeps_bind; [|intros ?]
        | apply keeps_ret | apply keeps_raise | apply keeps_gets
        | apply keeps_modify; intros ? ?; assumption ].


Lemma process_file_keeps_header_length n path d :
  keeps (header_length n) (process_file path d).
Proof.
  unfold process_file, print, mark_slot, struct_pack_I, outfile_write,
    outfile_seek_cur, outfile_seek.
  destruct d as [|s]; repeat keeps_step.
  repeat first
    [ keeps_step
    | case_decide
    | match goal with
      | |- keeps _ (match ?x with _ => _ end) => destruct x
      end
    | apply keeps_modify; intros st Hst; unfold header_length in *;
      cbn [set_header header]; rewrite length_py_set_index; exact Hst ].
Qed.

Lemma run_step_keeps_header_length n s : keeps (header_length n) (run_step s).
Proof.
  destruct s; cbn [run_step]; [|apply process_file_keeps_header_length|];
    unfold print; keeps_step.
Qed.

Lemma process_dir_keeps_header_length n path nd :
  keeps (header_length n) (process_dir path nd).
Proof.
  eapply keeps_ext; [apply process_dir_schedule|].
  apply keeps_for_each, run_step_keeps_header_length.
Qed.

(** C2: whatever the inputs, the header that [pack] builds has 514 bytes,
    not 512: each of the two slice assignments puts four bytes in the place
    of three.  When [pack] returns, it has written the 514 bytes at offset
    0: the file is at position 514 and its bytes 512 and 513, the first two
    of slot 0, are the last two of the header. *)
Theorem pack_header_has_514_bytes infiles :
  let r := pack infiles init in
  length magic_header = 514%nat ∧
  length (header r.2) = 514%nat ∧
  match r.1 with
  | Ok _ =>
      f_pos (outfile r.2) = 514 ∧ 514 ≤ f_size (outfile r.2) ∧
      byte_at (outfile r.2) 512 = default 0 (header r.2 !! 512%nat) ∧
      byte_at (outfile r.2) 513 = default 0 (header r.2 !! 513%nat)
  | Raise _ => True
  end.
Proof.
  cbv zeta. split; [reflexivity|].
  set (loop := for_each infiles (λ infile,
    match infile.2 with
    | Some (Directory entries) => process_dir infile.1 (Directory entries)
    | Some (RegFile d) | Some (Special d) => process_file infile.1 d
    | None => print (DoesNotExistSkipping infile.1)
    end)).
  set (st0 := set_outfile (file_seek 512 empty_file) (set_header magic_header init)).
  assert (Hloop : header_length 514 (loop st0).2).
  { apply keeps_for_each; [|reflexivity].
    intros [p [[d|es|d]|]]; cbn [fst snd].
    - apply process_file_keeps_header_length.
    - apply process_dir_keeps_header_length.
    - apply process_file_keeps_header_length.
    - unfold print. keeps_step. }
  assert (Hrun : pack infiles init =
    match loop st0 with
    | (Ok _, st1) =>
        (Ok tt, set_outfile (file_write (header st1) (file_seek 0 (outfile st1))) st1)
    | (Raise e, st1) => (Raise e, st1)
    end).
  { unfold pack. fold loop. mrun. unfold outfile_seek. mrun.
    change (set_outfile _ _) with st0 at 1.
    destruct (loop st0) as [[[]|e] st1]; [|reflexivity].
    mrun. unfold outfile_write. mrun. reflexivity. }
  rewrite Hrun. destruct (loop st0) as [[[]|e] st1]; cbn [fst snd] in *;
    [|split; [exact Hloop|exact I]].
  unfold header_length in Hloop.
  cbn [set_outfile header outfile]. split; [exact Hloop|].
  unfold file_write. cbn [f_pos f_size file_seek]. rewrite Hloop.
  split; [reflexivity|]. split; [rewrite decide_False by lia; lia|].
  unfold byte_at. cbn [f_data]. rewrite !write_bytes_lookup, Hloop.
  rewrite !decide_True by lia. split; reflexivity.
Qed.

(** ** The loop of [pack] *)

Lemma pack_loop_steps infiles st :
  for_each infiles (λ infile,
    match infile.2 with
    | Some (Directory entries) => process_dir infile.1 (Directory entries)
    | Some (RegFile d) | Some (Special d) => process_file infile.1 d
    | None => print (DoesNotExistSkipping infile.1)
    end) st
  = for_each (pack_steps infiles) run_step st.
Proof.
  revert st. induction infiles as [|[p o] l IH]; intros st; [reflexivity|].
  unfold pack_steps. cbn [for_each fmap list_fmap concat].
  rewrite for_each_app, !run_bind.
  assert (Hhd : ∀ st,
    match o with
    | Some (Directory entries) => process_dir p (Directory entries)
    | Some (RegFile d) | Some (Special d) => process_file p d
    | None => print (DoesNotExistSkipping p)
    end st = for_each (infile_steps (p, o)) run_step st).
  { intros st0. destruct o as [[d|es|d]|]; cbn [infile_steps fst snd].
    - cbn [for_each run_step]. rewrite run_bind.
      destruct (process_file p d st0) as [[[]|e] st1]; reflexivity.
    - apply process_dir_schedule.
    - cbn [for_each run_step]. rewrite run_bind.
      destruct (process_file p d st0) as [[[]|e] st1]; reflexivity.
    - cbn [for_each run_step]. rewrite run_bind, run_print. reflexivity. }
  cbn [fst snd]. rewrite Hhd.
  destruct (for_each (infile_steps (p, o)) run_step st) as [[[]|e] st1];
    [apply IH|reflexivity].
Qed.

Lemma mark_all_cons h n len :
  0 ≤ len → mark_all h n (len + 1) = mark_all (marked h n) (n + 1) len.
Proof.
  intros Hlen. unfold mark_all. rewrite (seqZ_cons n) by lia.
  replace (Z.succ n) with (n + 1) by lia.
  replace (Z.pred (len + 1)) with len by lia. reflexivity.
Qed.

Lemma pack_inv_add_lines ms st : pack_inv st → pack_inv (add_lines ms st).
Proof. intros [? ? ? ?]. split; assumption. Qed.

(** A step that packs nothing only prints. *)
Lemma run_step_skip s st :
  packed_sample s = None →
  ∃ ms, run_step s st = (Ok tt, add_lines ms st).
Proof.
  intros Hs. destruct s as [p|p d|p]; cbn [run_step].
  - exists [ProcessingDirectory p]. reflexivity.
  - exists [ProcessingFile p; skip_msg d].
    rewrite process_file_skip.
    + unfold add_lines, add_console. cbn. rewrite <- app_assoc. reflexivity.
    + destruct d as [|a]; [exact I|]. cbn in Hs. case_decide; [discriminate|].
      assumption.
  - exists [DoesNotExistSkipping p]. reflexivity.
Qed.

(** A step for an eligible sample packs it, while the header has a byte
    for its bit. *)
Lemma run_step_accept s a st :
  packed_sample s = Some a →
  pack_inv st → step_wf s → num_samples st < 3984 →
  ∃ p, run_step s st = (Ok tt, accept p a st).
Proof.
  intros Hs Hinv Hwf Hcap. pose proof Hinv as [Htoc Hn Hh Hp].
  destruct s as [p|p [|a']|p]; try discriminate Hs.
  cbn in Hs. case_decide as Hel; [|discriminate]. injection Hs as ->.
  exists p. cbn [run_step]. apply process_file_accept; try assumption.
  - rewrite Hp. unfold slot_offset. lia.
  - rewrite Hh. assert (num_samples st / 8 < 498)
      by (apply Z.div_lt_upper_bound; lia).
    pose proof (Z.div_pos (num_samples st) 8). lia.
Qed.

(** The loop of [pack] under the invariant, while the header has room:
    every eligible sample is packed, the [k]-th of them into slot
    [n + k] when [n] samples were packed before.  The first 512 KiB of
    the payload of each are in the file at the end; what comes after is
    overwritten by the next sample. *)
Lemma run_steps_spec steps : ∀ st,
  pack_inv st → Forall step_wf steps →
  num_samples st + Z.of_nat (length (packed_samples steps)) ≤ 3984 →
  ∃ st', for_each steps run_step st = (Ok tt, st') ∧
    pack_inv st' ∧
    num_samples st' =
      num_samples st + Z.of_nat (length (packed_samples steps)) ∧
    header st' = mark_all (header st) (num_samples st)
                   (Z.of_nat (length (packed_samples steps))) ∧
    dest_files st' = dest_files st ∧
    f_size (outfile st) ≤ f_size (outfile st') ∧
    (∀ i, i < slot_offset (num_samples st) →
       byte_at (outfile st') i = byte_at (outfile st) i) ∧
    (∀ (k : nat) a, packed_samples steps !! k = Some a →
       slot_offset (num_samples st + Z.of_nat k) + Z.of_nat (length (payload a))
         ≤ f_size (outfile st') ∧
       ∀ (i : nat) b, payload a !! i = Some b → Z.of_nat i < 512 * 1024 →
         byte_at (outfile st')
           (slot_offset (num_samples st + Z.of_nat k) + Z.of_nat i) = b).
Proof.
  induction steps as [|s steps IH]; intros st Hinv Hwf Hcap.
  - exists st. cbn [for_each packed_samples omap list_omap length].
    unfold mark_all. rewrite Z.add_0_r.
    split; [reflexivity|]. split; [exact Hinv|]. split; [reflexivity|].
    split; [reflexivity|]. split; [reflexivity|]. split; [lia|].
    split; [reflexivity|]. intros k a Hk. discriminate Hk.
  - apply Forall_cons in Hwf as [Hs Hwf].
    cbn [for_each]. rewrite run_bind.
    unfold packed_samples in *. cbn [omap list_omap] in *.
    destruct (packed_sample s) as [a|] eqn:Hps.
    + cbn [length] in Hcap |- *.
      destruct (run_step_accept s a st Hps Hinv Hs) as [p Hrun]; [lia|].
      rewrite Hrun. cbv beta iota.
      pose proof (accept_pack_inv p a st Hinv) as Hinv1.
      destruct (IH (accept p a st) Hinv1 Hwf) as
        (st' & Hrun' & Hinv' & Hn' & Hh' & Hd' & Hsz' & Hlow' & Hslots');
        [cbn [accept num_samples]; lia|].
      cbn [accept num_samples header dest_files] in Hn', Hh', Hd', Hlow', Hslots'.
      exists st'. split; [exact Hrun'|]. split; [exact Hinv'|].
      split; [lia|]. split.
      { rewrite Hh'. replace (Z.of_nat (S (length (omap packed_sample steps))))
          with (Z.of_nat (length (omap packed_sample steps)) + 1) by lia.
        rewrite mark_all_cons by lia. reflexivity. }
      split; [exact Hd'|].
      pose proof (accept_size p a st) as Hsz1.
      pose proof (inv_pos _ Hinv) as Hpos.
      split; [lia|]. split.
      { intros i Hi. rewrite Hlow' by (unfold slot_offset in *; lia).
        rewrite accept_byte_at, decide_False by lia. reflexivity. }
      intros [|k] a' Hk.
      * injection Hk as <-. rewrite Z.add_0_r. split; [lia|].
        intros i b Hb Hi.
        rewrite Hlow' by (unfold slot_offset; lia).
        rewrite accept_byte_at, Hpos.
        apply lookup_lt_Some in Hb as Hlt.
        rewrite decide_True by lia.
        replace (Z.to_nat (slot_offset (num_samples st) + Z.of_nat i
                           - slot_offset (num_samples st))) with i by lia.
        rewrite Hb. reflexivity.
      * cbn [lookup list_lookup] in Hk.
        replace (num_samples st + Z.of_nat (S k))
          with (num_samples st + 1 + Z.of_nat k) by lia.
        apply Hslots', Hk.
    + destruct (run_step_skip s st Hps) as [ms Hrun].
      rewrite Hrun. cbv beta iota.
      destruct (IH (add_lines ms st) (pack_inv_add_lines ms st Hinv) Hwf Hcap)
        as (st' & Hrun' & Hrest).
      exists st'. split; [exact Hrun'|exact Hrest].
Qed.

(** ** The header after several samples *)

Lemma mark_all_nil h n len : len ≤ 0 → mark_all h n len = h.
Proof. intros Hlen. unfold mark_all. rewrite seqZ_nil by exact Hlen. reflexivity. Qed.

(** Induction on the number of slots recorded. *)
Lemma mark_all_ind (P : list Z → Z → Z → list Z → Prop) :
  (∀ h n, P h n 0 h) →
  (∀ h n len, 0 ≤ len →
     P (marked h n) (n + 1) len (mark_all (marked h n) (n + 1) len) →
     P h n (len + 1) (mark_all h n (len + 1))) →
  ∀ len, 0 ≤ len → ∀ h n, P h n len (mark_all h n len).
Proof.
  intros H0 HS len Hlen. pattern len. apply natlike_ind; [| |exact Hlen].
  - intros h n. rewrite mark_all_nil by lia. apply H0.
  - intros x Hx IH h n. unfold Z.succ. apply HS; [exact Hx|].
    apply IH.
Qed.

Lemma length_mark_all h n len : length (mark_all h n len) = length h.
Proof.
  unfold mark_all. revert h. induction (seqZ n len) as [|k l IH]; intros h;
    [reflexivity|]. cbn [foldl]. rewrite IH. apply length_marked.
Qed.

Lemma marked_lookup_ne h n (i : nat) :
  i ≠ Z.to_nat (16 + n / 8) → marked h n !! i = h !! i.
Proof. intros Hne. unfold marked. apply list_lookup_alter_ne. congruence. Qed.

(** Only the bytes of the recorded slots change. *)
Lemma mark_all_lookup_outside (i : nat) len : 0 ≤ len → ∀ h n,
  (∀ k, n ≤ k < n + len → i ≠ Z.to_nat (16 + k / 8)) →
  mark_all h n len !! i = h !! i.
Proof.
  intros Hlen h n. revert i.
  apply (mark_all_ind (λ h n len r, ∀ i : nat,
    (∀ k, n ≤ k < n + len → i ≠ Z.to_nat (16 + k / 8)) → r !! i = h !! i));
    [reflexivity| |exact Hlen].
  clear. intros h n len Hlen IH i Hi. rewrite mark_all_cons by exact Hlen.
  rewrite IH by (intros k Hk; apply Hi; lia).
  apply marked_lookup_ne, Hi. lia.
Qed.

(** The bit of slot [k] after the slots from [n] up to [n + len] are
    recorded, in a header that has a byte for each of them. *)
Lemma header_bit_mark_all k len : 0 ≤ len → ∀ h n,
  0 ≤ n → 0 ≤ k →
  (0 < len → (Z.to_nat (16 + (n + len - 1) / 8) < length h)%nat) →
  header_bit (mark_all h n len) k =
    header_bit h k || bool_decide (n ≤ k < n + len).
Proof.
  intros Hlen.
  pose (P := λ (h0 : list Z) (n0 len0 : Z) (r : list Z), 0 ≤ n0 → 0 ≤ k →
    (0 < len0 → (Z.to_nat (16 + (n0 + len0 - 1) / 8) < length h0)%nat) →
    header_bit r k = header_bit h0 k || bool_decide (n0 ≤ k < n0 + len0)).
  apply (mark_all_ind P); [| |exact Hlen]; subst P; cbv beta; clear.
  - intros h n Hn Hk _. rewrite bool_decide_eq_false_2 by lia.
    rewrite orb_false_r. reflexivity.
  - intros h n len Hlen IH Hn Hk Hh. rewrite mark_all_cons by exact Hlen.
    specialize (Hh ltac:(lia)).
    replace (n + (len + 1) - 1) with (n + len) in Hh by lia.
    rewrite IH; [|lia|lia|].
    + destruct (decide (k = n)) as [->|Hne].
      * rewrite header_bit_marked_eq; [|lia|].
        -- rewrite (bool_decide_eq_true_2 (n ≤ n < n + (len + 1))) by lia.
           rewrite orb_true_r. reflexivity.
        -- assert (n / 8 ≤ (n + len) / 8) by (apply Z.div_le_mono; lia).
           pose proof (Z.div_pos n 8). lia.
      * rewrite header_bit_marked_ne by lia. f_equal.
        apply bool_decide_ext. lia.
    + intros _. rewrite length_marked.
      replace (n + 1 + len - 1) with (n + len) by lia. exact Hh.
Qed.

(** Bytes stay bytes. *)
Lemma lor_bit_is_byte b m : is_byte b → 0 ≤ m < 8 → is_byte (Z.lor b (Z.shiftl 1 m)).
Proof.
  unfold is_byte. intros Hb Hm. rewrite Z.shiftl_1_l.
  assert (0 ≤ 2 ^ m) by (apply Z.pow_nonneg; lia).
  assert (2 ^ m < 2 ^ 8) by (apply Z.pow_lt_mono_r; lia).
  split; [apply Z.lor_nonneg; lia|].
  destruct (decide (Z.lor b (2 ^ m) = 0)) as [->|Hnz]; [lia|].
  assert (0 ≤ Z.lor b (2 ^ m)) by (apply Z.lor_nonneg; lia).
  apply (Z.log2_lt_pow2 _ 8); [lia|].
  rewrite Z.log2_lor by lia. rewrite Z.log2_pow2 by lia.
  destruct (decide (b = 0)) as [->|Hbz]; [cbn; lia|].
  assert (Z.log2 b < 8) by (apply Z.log2_lt_pow2; lia). lia.
Qed.

Lemma marked_is_byte h n : Forall is_byte h → Forall is_byte (marked h n).
Proof.
  intros Hh. unfold marked. apply Forall_alter; [exact Hh|].
  intros b _ Hb. apply lor_bit_is_byte; [exact Hb|]. apply Z.mod_pos_bound. lia.
Qed.

Lemma mark_all_is_byte h n len : Forall is_byte h → Forall is_byte (mark_all h n len).
Proof.
  unfold mark_all. revert h. induction (seqZ n len) as [|k l IH]; intros h Hh;
    [exact Hh|]. cbn [foldl]. apply IH, marked_is_byte, Hh.
Qed.

(** ** [pack] as a whole *)

Lemma pack_start_inv : pack_inv pack_start.
Proof. split; reflexivity || (cbn; lia). Qed.

(** [pack] runs its steps, then writes the header at offset 0. *)
Lemma pack_run infiles :
  pack infiles init =
    match for_each (pack_steps infiles) run_step pack_start with
    | (Ok _, st1) =>
        (Ok tt, set_outfile (file_write (header st1) (file_seek 0 (outfile st1))) st1)
    | (Raise e, st1) => (Raise e, st1)
    end.
Proof.
  unfold pack. mrun. unfold outfile_seek. mrun.
  change (set_outfile (file_seek 512 _) _) with pack_start.
  rewrite pack_loop_steps.
  destruct (for_each (pack_steps infiles) run_step pack_start)
    as [[[]|e] st1]; [|reflexivity].
  mrun. unfold outfile_write. mrun. reflexivity.
Qed.

(** While the header has room, [pack] returns with every eligible sample
    packed: sample [k] in slot [k], its bit set, its payload at the offset
    of the slot.  The header is in the first 514 bytes of the file. *)
Lemma pack_spec infiles :
  Forall step_wf (pack_steps infiles) →
  Z.of_nat (length (packed_samples (pack_steps infiles))) ≤ 3984 →
  ∃ st', pack infiles init = (Ok tt, st') ∧
    num_samples st' = Z.of_nat (length (packed_samples (pack_steps infiles))) ∧
    toc_offset st' = 16 ∧
    header st' = mark_all magic_header 0
                   (Z.of_nat (length (packed_samples (pack_steps infiles)))) ∧
    dest_files st' = [] ∧
    514 ≤ f_size (outfile st') ∧
    (∀ i : nat, (i < 514)%nat →
       header st' !! i = Some (byte_at (outfile st') (Z.of_nat i))) ∧
    (∀ (k : nat) a, packed_samples (pack_steps infiles) !! k = Some a →
       slot_offset (Z.of_nat k) + Z.of_nat (length (payload a))
         ≤ f_size (outfile st') ∧
       ∀ (i : nat) b, payload a !! i = Some b → Z.of_nat i < 512 * 1024 →
         514 ≤ slot_offset (Z.of_nat k) + Z.of_nat i →
         byte_at (outfile st') (slot_offset (Z.of_nat k) + Z.of_nat i) = b).
Proof.
  intros Hwf Hcap.
  destruct (run_steps_spec (pack_steps infiles) pack_start pack_start_inv Hwf)
    as (st1 & Hrun & Hinv & Hn & Hh & Hd & Hsz & _ & Hslots);
    [cbn [pack_start set_outfile num_samples set_header init]; lia|].
  cbn [pack_start set_outfile set_header init num_samples header dest_files
       outfile] in Hn, Hh, Hd, Hslots.
  rewrite Z.add_0_l in Hn.
  eexists. split; [rewrite pack_run, Hrun; reflexivity|].
  cbn [set_outfile num_samples toc_offset header dest_files outfile].
  pose proof (inv_header _ Hinv) as Hlen.
  split; [exact Hn|]. split; [apply Hinv|]. split; [exact Hh|].
  split; [exact Hd|]. split.
  { unfold file_write. cbn [f_size file_seek f_pos]. rewrite Hlen.
    rewrite decide_False by lia. lia. }
  split.
  { intros i Hi. rewrite byte_at_write. cbn [file_seek f_pos].
    rewrite decide_True by lia.
    replace (Z.to_nat (Z.of_nat i - 0)) with i by lia.
    destruct (lookup_lt_is_Some_2 (header st1) i) as [b Hb]; [lia|].
    rewrite Hb. reflexivity. }
  intros k a Hk. destruct (Hslots k a Hk) as [Hsize Hbytes].
  rewrite Z.add_0_l in Hsize, Hbytes. split.
  { unfold file_write. cbn [f_size file_seek f_pos]. case_decide; lia. }
  intros i b Hb Hi Hhi. rewrite byte_at_write. cbn [file_seek f_pos].
  rewrite decide_False by lia. rewrite byte_at_seek. apply Hbytes; assumption.
Qed.

(** ** More samples than slots *)

Lemma header_bit_magic_header k : 0 ≤ k → header_bit magic_header k = false.
Proof.
  intros Hk. unfold header_bit.
  assert (Hdrop : drop 16 magic_header = replicate 498 0) by reflexivity.
  pose proof (Z.div_pos k 8).
  replace (Z.to_nat (16 + k / 8)) with (16 + Z.to_nat (k / 8))%nat by lia.
  rewrite <- lookup_drop, Hdrop.
  destruct (replicate 498 0 !! Z.to_nat (k / 8)) as [b|] eqn:Hb; [|reflexivity].
  apply lookup_replicate in Hb as [-> _]. apply Z.bits_0.
Qed.

(** The bits of a header of [pack]: those of the packed samples. *)
Lemma header_bit_packed n k :
  0 ≤ n ≤ 3984 → 0 ≤ k →
  header_bit (mark_all magic_header 0 n) k = bool_decide (k < n).
Proof.
  intros Hn Hk. rewrite header_bit_mark_all; [|lia|lia|exact Hk|].
  - rewrite header_bit_magic_header by exact Hk. cbn [orb].
    apply bool_decide_ext. lia.
  - intros Hpos. change (length magic_header) with 514%nat.
    assert ((0 + n - 1) / 8 < 498) by (apply Z.div_lt_upper_bound; lia).
    pose proof (Z.div_pos (0 + n - 1) 8). lia.
Qed.

(** C4, as the claim states it: given 513 eligible samples, [pack] packs
    513 of them, not 512; the last one is not rejected but written as
    sample 512. *)
Lemma pack_513_samples_packs_513 :
  let r := pack many_samples init in
  r.1 = Ok tt ∧
  num_samples r.2 = 513 ∧ num_samples r.2 ≠ 512 ∧
  last (console r.2) = Some (OkWroteSample 512) ∧
  header_bit (header r.2) 512 = true.
Proof. vm_compute. repeat split. discriminate. Qed.

(** C4, amended: [pack] has no limit of 512 samples and never rejects a
    sample because the archive is full.  Up to 3984 eligible samples it
    packs every one: the counter ends at their number, sample [k] is
    recorded as bit [k mod 8] of header byte [16 + k / 8] (past the 64
    bytes of the bitmap from sample 512 on) and written at offset
    [512 + k * 524288].  Nothing wraps around: exactly the bits of the
    packed samples are set, and the first 512 KiB of the payload of each
    are in the file when [pack] returns, from offset 514 on. *)
Theorem pack_packs_every_eligible_sample infiles :
  Forall step_wf (pack_steps infiles) →
  Z.of_nat (length (packed_samples (pack_steps infiles))) ≤ 3984 →
  ∃ st', pack infiles init = (Ok tt, st') ∧
    num_samples st' = Z.of_nat (length (packed_samples (pack_steps infiles))) ∧
    (∀ k, 0 ≤ k →
       header_bit (header st') k =
         bool_decide (k < Z.of_nat (length (packed_samples (pack_steps infiles))))) ∧
    (∀ (k : nat) a, packed_samples (pack_steps infiles) !! k = Some a →
       ∀ (i : nat) b, payload a !! i = Some b → Z.of_nat i < 512 * 1024 →
         514 ≤ slot_offset (Z.of_nat k) + Z.of_nat i →
         byte_at (outfile st') (slot_offset (Z.of_nat k) + Z.of_nat i) = b).
Proof.
  intros Hwf Hcap.
  destruct (pack_spec infiles Hwf Hcap)
    as (st' & Hrun & Hn & _ & Hh & _ & _ & _ & Hslots).
  exists st'. split; [exact Hrun|]. split; [exact Hn|]. split.
  - intros k Hk. rewrite Hh. apply header_bit_packed; lia.
  - intros k a Hk. apply (Hslots k a Hk).
Qed.

Lemma pack_packs_every_eligible_sample_witness :
  ∃ st', pack many_samples init = (Ok tt, st') ∧
    num_samples st' = Z.of_nat (length (packed_samples (pack_steps many_samples))) ∧
    (∀ k, 0 ≤ k →
       header_bit (header st') k =
         bool_decide (k < Z.of_nat (length (packed_samples (pack_steps many_samples))))) ∧
    (∀ (k : nat) a, packed_samples (pack_steps many_samples) !! k = Some a →
       ∀ (i : nat) b, payload a !! i = Some b → Z.of_nat i < 512 * 1024 →
         514 ≤ slot_offset (Z.of_nat k) + Z.of_nat i →
         byte_at (outfile st') (slot_offset (Z.of_nat k) + Z.of_nat i) = b).
Proof.
  apply (pack_packs_every_eligible_sample many_samples).
  - apply (bool_decide_eq_true_1 (Forall step_wf (pack_steps many_samples))).
    vm_compute. reflexivity.
  - vm_compute. discriminate.
Defined.

(** ** The longest sample the filter lets through *)

Lemma big_sample_wf : aiff_wf big_sample.
Proof.
  unfold aiff_wf, big_sample. cbn [nframes sampwidth nchannels frames].
  split; [lia|]. split.
  - rewrite length_replicate. lia.
  - apply Forall_replicate. lia.
Qed.

(** C5: a sample of 524288 frames passes the filter of [process_file].
    Its payload has 524292 bytes, four more than a slot: written at the
    start of slot 0 it ends four bytes into slot 1, and the file is then
    positioned at the start of slot 1, where the next sample goes. *)
Theorem process_file_accepts_payload_longer_than_slot :
  let r := process_file "big.aiff" (Sample big_sample) pack_start in
  eligible big_sample ∧
  r = (Ok tt, accept "big.aiff" big_sample pack_start) ∧
  num_samples r.2 = 1 ∧
  Z.of_nat (length (payload big_sample)) = 512 * 1024 + 4 ∧
  f_size (outfile r.2) = slot_offset 1 + 4 ∧
  f_pos (outfile r.2) = slot_offset 1.
Proof.
  assert (Hel : eligible big_sample).
  { unfold eligible, big_sample. cbn [nframes sampwidth nchannels]. lia. }
  assert (Hlen : Z.of_nat (length (payload big_sample)) = 512 * 1024 + 4).
  { rewrite length_payload. unfold big_sample. cbn [frames].
    rewrite length_replicate. lia. }
  assert (Hrun : process_file "big.aiff" (Sample big_sample) pack_start
                 = (Ok tt, accept "big.aiff" big_sample pack_start)).
  { apply process_file_accept.
    - exact Hel.
    - exact big_sample_wf.
    - reflexivity.
    - reflexivity.
    - apply Z.leb_le. reflexivity.
    - apply Nat.ltb_lt. reflexivity. }
  cbv zeta. rewrite Hrun. cbn [fst snd].
  split; [exact Hel|]. split; [reflexivity|]. split; [reflexivity|].
  split; [exact Hlen|]. split.
  - rewrite accept_size, Hlen.
    change (f_size (outfile pack_start)) with 0.
    change (f_pos (outfile pack_start)) with 512.
    unfold slot_offset. lia.
  - apply (inv_pos _ (accept_pack_inv "big.aiff" big_sample pack_start
                        pack_start_inv)).
Qed.

(** ** Packing, then unpacking *)

(** C1: nine eligible samples are packed into the slots 0 to 8, and
    [unpack] on the archive writes eight sample files, those of the slots
    0 to 7: the ninth sample is in the archive, with its bit in the
    bitmap, and is not extracted. *)
Theorem unpack_after_pack_loses_ninth_sample :
  let packed := pack nine_samples init in
  let r := unpack Linux "a.bin" regular_file_info (outfile packed.2)
                  "out" directory_info true 512 init in
  packed.1 = Ok tt ∧ r.1 = Ok tt ∧
  frames <$> packed_samples (pack_steps nine_samples)
    = [[0]; [1]; [2]; [3]; [4]; [5]; [6]; [7]; [8]] ∧
  header_bit (header packed.2) 8 = true ∧
  ws_frames <$> dest_files r.2
    = [[0]; [1]; [2]; [3]; [4]; [5]; [6]; [7]] ∧
  ws_path <$> dest_files r.2
    = ["out/000.aiff"; "out/001.aiff"; "out/002.aiff"; "out/003.aiff";
       "out/004.aiff"; "out/005.aiff"; "out/006.aiff"; "out/007.aiff"].
Proof. vm_compute. repeat split. Qed.

(** ** The scan of [unpack] *)

Lemma extracted_ext dest f f' x :
  f_data f = f_data f' → f_size f = f_size f' →
  extracted dest f x = extracted dest f' x.
Proof.
  intros Hd Hs. unfold extracted, slot_data, stored_size, file_read,
    read_count, byte_at. cbn [file_seek f_data f_size f_pos fst].
  rewrite Hd, Hs. reflexivity.
Qed.

Lemma sample_in_slot_found x st :
  toc_offset st = 16 → 0 ≤ x → Forall is_byte (header st) →
  (Z.to_nat (16 + x / 8) < length (header st))%nat →
  sample_in_slot x st = (Ok (found (header st) x), st).
Proof.
  intros Htoc Hx Hb Hlen. unfold found.
  destruct (decide (x < 8)) as [Hlt|Hge].
  - rewrite bool_decide_eq_true_2 by exact Hlt. cbn [andb].
    apply sample_in_slot_low; [exact Htoc|lia|].
    pose proof (Z.div_pos x 8). lia.
  - rewrite bool_decide_eq_false_2 by exact Hge. cbn [andb].
    destruct (lookup_lt_is_Some_2 _ _ Hlen) as [b Hlk].
    apply (sample_in_slot_high x st b); [exact Htoc|lia|exact Hlk|].
    apply (Forall_lookup_1 _ _ _ _ Hb Hlk).
Qed.

(** The scan over the slots [xs]: every slot that is found, and whose
    count is in the file, gives a sample file; the others give nothing. *)
Lemma scan_spec dest xs : ∀ st,
  toc_offset st = 16 → Forall is_byte (header st) →
  Forall (λ x, 0 ≤ x ∧ (Z.to_nat (16 + x / 8) < length (header st))%nat ∧
               (found (header st) x = true →
                slot_offset x + 4 ≤ f_size (outfile st))) xs →
  ∃ st', for_each xs (unpack_slot dest) st = (Ok tt, st') ∧
    dest_files st' = dest_files st ++
      (extracted dest (outfile st) <$> filter (λ x, found (header st) x = true) xs).
Proof.
  induction xs as [|x xs IH]; intros st Htoc Hb Hxs.
  - exists st. split; [reflexivity|]. cbn. rewrite app_nil_r. reflexivity.
  - apply Forall_cons in Hxs as [(Hx & Hlen & Hsz) Hxs].
    cbn [for_each]. rewrite run_bind, filter_cons.
    pose proof (sample_in_slot_found x st Htoc Hx Hb Hlen) as Hin.
    destruct (found (header st) x) eqn:Hf.
    + destruct (unpack_slot_present dest x st Hx Hin (Hsz eq_refl))
        as (st1 & Hrun & Hfiles & Hh & Htoc1 & Hdata & Hsize).
      rewrite Hrun. cbv beta iota.
      destruct (IH st1) as (st' & Hrun' & Hfiles').
      * rewrite Htoc1. exact Htoc.
      * rewrite Hh. exact Hb.
      * rewrite Hh, Hsize. exact Hxs.
      * exists st'. split; [exact Hrun'|].
        rewrite Hfiles', Hfiles, Hh, decide_True by reflexivity.
        rewrite <- app_assoc. cbn [fmap list_fmap app]. do 2 f_equal.
        apply list_fmap_ext. intros _ y _.
        apply extracted_ext; assumption.
    + rewrite unpack_slot_absent by exact Hin. cbv beta iota.
      destruct (IH st Htoc Hb Hxs) as (st' & Hrun' & Hfiles').
      exists st'. split; [exact Hrun'|].
      rewrite decide_False by discriminate. exact Hfiles'.
Qed.

(** ** The frame count in four bytes *)

Lemma testbit_255 m : Z.testbit 255 m = bool_decide (0 ≤ m < 8).
Proof.
  change 255 with (Z.ones 8). case_bool_decide as Hm.
  - apply Z.ones_spec_low. lia.
  - destruct (decide (m < 0)); [apply Z.testbit_neg_r; lia|].
    apply Z.ones_spec_high. lia.
Qed.

(** The byte of [n] at bit [k], put back at bit [k]. *)
Lemma testbit_byte_field n k m :
  0 ≤ k → 0 ≤ m →
  Z.testbit (Z.shiftl (Z.land (Z.shiftr n k) 255) k) m
    = Z.testbit n m && bool_decide (k ≤ m < k + 8).
Proof.
  intros Hk Hm. rewrite Z.shiftl_spec by exact Hm.
  rewrite Z.land_spec, testbit_255.
  destruct (decide (k ≤ m)) as [Hle|Hlt].
  - rewrite Z.shiftr_spec by lia. replace (m - k + k) with m by lia.
    f_equal. apply bool_decide_ext. lia.
  - rewrite (bool_decide_eq_false_2 (0 ≤ m - k < 8)) by lia.
    rewrite (bool_decide_eq_false_2 (k ≤ m < k + 8)) by lia.
    rewrite !andb_false_r. reflexivity.
Qed.

Lemma be32_value_be32 n :
  0 ≤ n < 2 ^ 32 →
  be32_value (Z.land (Z.shiftr n 24) 255) (Z.land (Z.shiftr n 16) 255)
             (Z.land (Z.shiftr n 8) 255) (Z.land n 255) = n.
Proof.
  intros Hn. unfold be32_value. apply Z.bits_inj'. intros m Hm.
  rewrite <- (Z.shiftl_0_r (Z.land n 255)).
  rewrite <- (Z.shiftr_0_r n) at 4.
  rewrite !Z.lor_spec, !testbit_byte_field by lia.
  destruct (decide (m < 32)) as [Hlt|Hge].
  - destruct (Z.testbit n m); [|reflexivity]. cbn [andb].
    destruct (decide (m < 8)); [|destruct (decide (m < 16));
      [|destruct (decide (m < 24))]];
      repeat case_bool_decide; try lia; reflexivity.
  - replace (Z.testbit n m) with false; [reflexivity|]. symmetry.
    destruct (decide (n = 0)) as [->|Hnz]; [apply Z.bits_0|].
    apply Z.bits_above_log2; [lia|].
    assert (Z.log2 n < 32) by (apply Z.log2_lt_pow2; lia). lia.
Qed.

(** Below 65536 the two high bytes of the count are zero. *)
Lemma be32_small n :
  0 ≤ n < 65536 →
  be32 n = [0; 0; Z.land (Z.shiftr n 8) 255; Z.land n 255].
Proof.
  intros Hn. unfold be32.
  assert (H16 : Z.shiftr n 16 = 0)
    by (rewrite Z.shiftr_div_pow2 by lia; apply Z.div_small; lia).
  assert (H24 : Z.shiftr n 24 = 0)
    by (rewrite Z.shiftr_div_pow2 by lia; apply Z.div_small; lia).
  rewrite H16, H24. reflexivity.
Qed.

Lemma filter_seqZ_below (P : Z → Prop) `{!∀ x, Decision (P x)} n m :
  0 ≤ n ≤ m → (∀ x, 0 ≤ x < m → (P x ↔ x < n)) →
  filter P (seqZ 0 m) = seqZ 0 n.
Proof.
  intros Hnm HP. replace m with (n + (m - n)) by lia.
  rewrite seqZ_app, filter_app by lia.
  assert (H1 : filter P (seqZ 0 n) = seqZ 0 n).
  { assert (Hall : Forall P (seqZ 0 n))
      by (apply Forall_seqZ; intros x Hx; apply HP; lia).
    induction Hall as [|x l Hx _ IH]; [reflexivity|].
    rewrite filter_cons_True, IH by exact Hx. reflexivity. }
  assert (H2 : filter P (seqZ (0 + n) (m - n)) = []).
  { assert (Hnone : Forall (λ x, ¬ P x) (seqZ (0 + n) (m - n)))
      by (apply Forall_seqZ; intros x Hx Hp; apply HP in Hp; lia).
    induction Hnone as [|x l Hx _ IH]; [reflexivity|].
    rewrite filter_cons_False, IH by exact Hx. reflexivity. }
  rewrite H1, H2, app_nil_r. reflexivity.
Qed.

(** ** What [unpack] gets back from an archive of [pack] *)

Lemma magic_header_is_byte : Forall is_byte magic_header.
Proof.
  apply (bool_decide_eq_true_1 (Forall is_byte magic_header)).
  vm_compute. reflexivity.
Qed.

Lemma header_bit_take n h k :
  0 ≤ k → (Z.to_nat (16 + k / 8) < n)%nat →
  header_bit (take n h) k = header_bit h k.
Proof.
  intros Hk Hn. unfold header_bit. rewrite lookup_take_lt by exact Hn.
  reflexivity.
Qed.

Lemma packed_samples_wf steps :
  Forall step_wf steps →
  Forall (λ a, aiff_wf a ∧ eligible a) (packed_samples steps).
Proof.
  induction 1 as [|s steps Hs _ IH]; [constructor|].
  unfold packed_samples in *. cbn [omap list_omap].
  destruct s as [p|p [|a]|p]; cbn [packed_sample]; try exact IH.
  case_decide; [|exact IH]. constructor; [split; assumption|exact IH].
Qed.

(** A slot that holds the payload of a sample of at most 524284 frames
    is written out as that sample. *)
Lemma extracted_packed dest f k a :
  aiff_wf a → eligible a → nframes a ≤ 524284 →
  slot_offset k + Z.of_nat (length (payload a)) ≤ f_size f →
  (∀ (i : nat) b, payload a !! i = Some b →
     byte_at f (slot_offset k + Z.of_nat i) = b) →
  extracted dest f k =
    WrittenSample (path_join dest (sample_file_name k)) 1 1 22050
                  (nframes a) (frames a).
Proof.
  intros (Hnf & Hfl & _) (Hw & Hc & _) Hfit Hsz Hbytes.
  rewrite Hw, Hc, !Z.mul_1_r in Hfl. rewrite length_payload in Hsz.
  assert (Hsize : stored_size f k = nframes a).
  { unfold stored_size.
    pose proof (Hbytes 0%nat _ eq_refl) as H0.
    pose proof (Hbytes 1%nat _ eq_refl) as H1.
    pose proof (Hbytes 2%nat _ eq_refl) as H2.
    pose proof (Hbytes 3%nat _ eq_refl) as H3.
    change (Z.of_nat 0) with 0 in H0. change (Z.of_nat 1) with 1 in H1.
    change (Z.of_nat 2) with 2 in H2. change (Z.of_nat 3) with 3 in H3.
    rewrite Z.add_0_r in H0. rewrite H0, H1, H2, H3.
    apply be32_value_be32, Hnf. }
  unfold extracted. rewrite Hsize. f_equal.
  unfold slot_data. rewrite Hsize.
  assert (Hcount : read_count (nframes a) (file_seek (slot_offset k + 4) f)
                   = nframes a).
  { unfold read_count. cbn [file_seek f_size f_pos]. lia. }
  apply list_eq. intros j.
  destruct (decide (Z.of_nat j < nframes a)) as [Hj|Hj].
  - rewrite file_read_lookup by (rewrite Hcount; exact Hj).
    cbn [file_seek f_pos]. rewrite byte_at_seek.
    destruct (lookup_lt_is_Some_2 (frames a) j) as [b Hb]; [lia|].
    rewrite Hb. f_equal.
    replace (slot_offset k + 4 + Z.of_nat j)
      with (slot_offset k + Z.of_nat (4 + j)) by lia.
    apply Hbytes. unfold payload.
    rewrite lookup_app_r by (rewrite length_be32; lia).
    rewrite length_be32. replace (4 + j - 4)%nat with j by lia. exact Hb.
  - rewrite !lookup_ge_None_2; [reflexivity|lia|].
    pose proof (file_read_length (nframes a)
                  (file_seek (slot_offset k + 4) f)). lia.
Qed.

Lemma magic_header_tail :
  magic_header !! 512%nat = Some 0 ∧ magic_header !! 513%nat = Some 0.
Proof. split; vm_compute; reflexivity. Qed.

Lemma check_src_regular sys src st :
  check_src sys src regular_file_info st
    = (Ok src, add_console (ReadingFromFile src) st).
Proof. reflexivity. Qed.

Lemma check_dest_directory dest mk st :
  check_dest dest directory_info mk st = (Ok dest, st).
Proof. reflexivity. Qed.

(** The 512 bytes [unpack] reads from an archive that starts with a
    header [h] of at least 512 bytes. *)
Lemma read_header f (h : list Z) :
  (512 ≤ length h)%nat → 512 ≤ f_size f →
  (∀ i : nat, (i < 512)%nat → h !! i = Some (byte_at f (Z.of_nat i))) →
  (file_read 512 (file_seek 0 f)).1 = take 512 h.
Proof.
  intros Hlen Hsz Hh. apply list_eq. intros i.
  assert (Hcount : read_count 512 (file_seek 0 f) = 512).
  { unfold read_count. cbn [file_seek f_size f_pos]. lia. }
  destruct (decide (i < 512)%nat) as [Hi|Hi].
  - rewrite file_read_lookup by (rewrite Hcount; lia).
    rewrite lookup_take_lt, Hh by exact Hi. reflexivity.
  - rewrite !lookup_ge_None_2; [reflexivity|rewrite length_take; lia|].
    pose proof (file_read_length 512 (file_seek 0 f)). lia.
Qed.

(** Round trip, where it holds: up to eight eligible samples of at most
    524284 frames each, the first of fewer than 65536 frames, come back
    from the archive with their frames and frame counts, in the order in
    which [pack] met them, as the files [000.aiff], [001.aiff], ... *)
Theorem unpack_after_pack_small sys infiles src dest mk samples :
  Forall step_wf (pack_steps infiles) →
  (length (packed_samples (pack_steps infiles)) ≤ 8)%nat →
  Forall (λ a, nframes a ≤ 524284) (packed_samples (pack_steps infiles)) →
  (∀ a, packed_samples (pack_steps infiles) !! 0%nat = Some a →
        nframes a < 65536) →
  src ≠ "" → dest ≠ "" → 8 ≤ samples ≤ 3968 →
  ∃ st' r, pack infiles init = (Ok tt, st') ∧
    unpack sys src regular_file_info (outfile st') dest directory_info mk
           samples init = (Ok tt, r) ∧
    dest_files r =
      imap (λ k a, WrittenSample
                     (path_join dest (sample_file_name (Z.of_nat k)))
                     1 1 22050 (nframes a) (frames a))
           (packed_samples (pack_steps infiles)).
Proof.
  intros Hwf Hcount Hfit Hfirst Hsrc Hdest Hsamples.
  set (l := packed_samples (pack_steps infiles)) in *.
  destruct (pack_spec infiles Hwf) as
    (st' & Hrun & Hn & Htoc & Hh & Hd & Hsz & Hhdr & Hslots); [fold l; lia|].
  fold l in Hn, Hh, Hslots.
  set (f := outfile st') in *. set (n := Z.of_nat (length l)) in *.
  assert (Hlen : length (header st') = 514%nat)
    by (rewrite Hh, length_mark_all; reflexivity).
  assert (Hbyte : Forall is_byte (header st'))
    by (rewrite Hh; apply mark_all_is_byte, magic_header_is_byte).
  (* the header that [unpack] reads *)
  assert (Hread : (file_read 512 (file_seek 0 f)).1 = take 512 (header st')).
  { apply read_header; [lia|lia|]. intros i Hi. apply Hhdr. lia. }
  assert (Hmagic : slice 0 8 (take 512 (header st')) = bytes_of_string "WTPASAMP").
  { unfold slice. rewrite drop_0, take_take. change (8 - 0)%nat with 8%nat.
    change (8 `min` 512)%nat with 8%nat. apply list_eq. intros i.
    destruct (decide (i < 8)%nat) as [Hi|Hi].
    - rewrite lookup_take_lt by exact Hi. rewrite Hh.
      rewrite mark_all_lookup_outside; [|lia|].
      + do 8 (destruct i as [|i]; [reflexivity|]). lia.
      + intros k Hk. pose proof (Z.div_pos k 8). lia.
    - rewrite !lookup_ge_None_2; [reflexivity|cbn; lia|].
      rewrite length_take. lia. }
  (* which slots the scan finds *)
  assert (Hfound : ∀ x, 0 ≤ x < samples →
    (found (take 512 (header st')) x = true ↔ x < n)).
  { intros x Hx. unfold found.
    assert (x / 8 < 496) by (apply Z.div_lt_upper_bound; lia).
    pose proof (Z.div_pos x 8).
    rewrite header_bit_take by lia.
    rewrite Hh, header_bit_packed by lia.
    rewrite andb_true_iff, !bool_decide_eq_true. lia. }
  (* what each of them holds *)
  assert (Hslot : ∀ (k : nat) a, l !! k = Some a →
    slot_offset (Z.of_nat k) + Z.of_nat (length (payload a)) ≤ f_size f ∧
    extracted dest f (Z.of_nat k) =
      WrittenSample (path_join dest (sample_file_name (Z.of_nat k)))
                    1 1 22050 (nframes a) (frames a)).
  { intros k a Hk. destruct (Hslots k a Hk) as [Hsize Hbytes].
    split; [exact Hsize|].
    pose proof (Forall_lookup_1 _ _ _ _ (packed_samples_wf _ Hwf) Hk)
      as [Hawf Hel].
    pose proof (Forall_lookup_1 _ _ _ _ Hfit Hk) as Hafit. cbv beta in Hafit.
    apply extracted_packed; try assumption.
    intros i b Hb.
    assert (Hi : Z.of_nat i < 512 * 1024).
    { apply lookup_lt_Some in Hb. pose proof (length_payload a).
      destruct Hawf as (_ & Hfl & _). destruct Hel as (Hw & Hc & _).
      rewrite Hw, Hc, !Z.mul_1_r in Hfl. lia. }
    destruct (decide (514 ≤ slot_offset (Z.of_nat k) + Z.of_nat i)) as [Hhi|Hlo].
    { apply Hbytes; assumption. }
    assert (k = 0%nat) as -> by (unfold slot_offset in Hlo; lia).
    assert (Hsmall : 0 ≤ nframes a < 65536).
    { destruct Hawf as (Hnf & _). specialize (Hfirst a Hk). lia. }
    unfold payload in Hb. rewrite be32_small in Hb by exact Hsmall.
    assert (Hz : ∀ j : nat, (512 ≤ j < 514)%nat → byte_at f (Z.of_nat j) = 0).
    { intros j Hj. pose proof (Hhdr j ltac:(lia)) as Hbj.
      rewrite Hh, mark_all_lookup_outside in Hbj; [| lia |].
      - assert (j = 512 ∨ j = 513)%nat as [-> | ->] by lia.
        + rewrite (proj1 magic_header_tail) in Hbj. congruence.
        + rewrite (proj2 magic_header_tail) in Hbj. congruence.
      - intros x Hx. assert (x / 8 < 1) by (apply Z.div_lt_upper_bound; lia).
        pose proof (Z.div_pos x 8). lia. }
    unfold slot_offset in *.
    destruct i as [|[|i]]; [| |lia]; cbn in Hb; injection Hb as <-.
    - apply (Hz 512%nat). lia.
    - apply (Hz 513%nat). lia. }
  (* the run of [unpack] *)
  set (st3 := set_header (file_read 512 (file_seek 0 f)).1
    (set_outfile (file_read 512 (file_seek 0 f)).2
       (add_console (ReadingFromFile src) init))).
  assert (Hrun3 : unpack sys src regular_file_info f dest directory_info mk
                    samples init
                  = for_each (seqZ 0 samples) (unpack_slot dest) st3).
  { rewrite (unpack_run sys src regular_file_info f dest directory_info mk
               samples init src (add_console (ReadingFromFile src) init)
               dest (add_console (ReadingFromFile src) init)
               (check_src_regular _ _ _) (check_dest_directory _ _ _)
               Hsrc Hdest).
    fold st3. rewrite Hread. apply magic_split in Hmagic as [Hw Hs].
    rewrite !bool_decide_eq_false_2; [reflexivity| |];
      intros Hne; apply Hne; assumption. }
  assert (Hh3 : header st3 = take 512 (header st')) by exact Hread.
  destruct (scan_spec dest (seqZ 0 samples) st3) as (r & Hscan & Hfiles).
  { reflexivity. }
  { rewrite Hh3. apply Forall_take, Hbyte. }
  { apply Forall_seqZ. intros x Hx. rewrite Hh3.
    split; [lia|]. split.
    - rewrite length_take, Hlen.
      assert (x / 8 < 496) by (apply Z.div_lt_upper_bound; lia).
      pose proof (Z.div_pos x 8). lia.
    - intros Hf. apply Hfound in Hf; [|lia].
      destruct (lookup_lt_is_Some_2 l (Z.to_nat x)) as [a Ha]; [lia|].
      destruct (Hslot _ _ Ha) as [Hsize _].
      rewrite Z2Nat.id in Hsize by lia.
      pose proof (length_payload a).
      change (f_size (outfile st3)) with (f_size f). lia. }
  exists st', r. split; [exact Hrun|]. split; [exact (eq_trans Hrun3 Hscan)|].
  rewrite Hfiles, Hh3. change (dest_files st3) with (@nil written_sample).
  rewrite app_nil_l.
  rewrite (filter_seqZ_below _ n samples); [|lia|].
  - apply list_eq. intros i. rewrite list_lookup_fmap, list_lookup_imap.
    destruct (l !! i) as [a|] eqn:Ha; cbn [fmap option_fmap option_map].
    + apply lookup_lt_Some in Ha as Hi.
      rewrite lookup_seqZ_lt by lia. cbn [fmap option_fmap option_map].
      f_equal. rewrite Z.add_0_l.
      rewrite (extracted_ext dest (outfile st3) f) by reflexivity.
      apply Hslot, Ha.
    + apply lookup_ge_None_1 in Ha.
      rewrite lookup_seqZ_ge by lia. reflexivity.
  - intros x Hx. apply Hfound. lia.
Qed.

Lemma unpack_after_pack_small_witness :
  ∃ st' r, pack [("d", Some example_dir)] init = (Ok tt, st') ∧
    unpack Linux "a.bin" regular_file_info (outfile st') "out" directory_info
           true 512 init = (Ok tt, r) ∧
    dest_files r =
      imap (λ k a, WrittenSample
                     (path_join "out" (sample_file_name (Z.of_nat k)))
                     1 1 22050 (nframes a) (frames a))
           (packed_samples (pack_steps [("d", Some example_dir)])).
Proof.
  apply (unpack_after_pack_small Linux [("d", Some example_dir)]
           "a.bin" "out" true 512).
  - apply (bool_decide_eq_true_1
             (Forall step_wf (pack_steps [("d", Some example_dir)]))).
    vm_compute. reflexivity.
  - vm_compute. lia.
  - apply (bool_decide_eq_true_1
             (Forall (λ a, nframes a ≤ 524284)
                (packed_samples (pack_steps [("d", Some example_dir)])))).
    vm_compute. reflexivity.
  - intros a Ha. vm_compute in Ha. injection Ha as <-. vm_compute. reflexivity.
  - discriminate.
  - discriminate.
  - lia.
Defined.

(** From slot 8 on, the presence test of [unpack] never finds a sample,
    whatever the bitmap holds. *)
Theorem sample_in_slot_false_from_slot_8 x st :
  toc_offset st = 16 → 8 ≤ x → Forall is_byte (header st) →
  (Z.to_nat (16 + x / 8) < length (header st))%nat →
  sample_in_slot x st = (Ok false, st).
Proof.
  intros Htoc Hx Hb Hlen.
  destruct (lookup_lt_is_Some_2 _ _ Hlen) as [b Hlk].
  apply (sample_in_slot_high x st b); [exact Htoc|exact Hx|exact Hlk|].
  apply (Forall_lookup_1 _ _ _ _ Hb Hlk).
Qed.

Lemma sample_in_slot_false_from_slot_8_witness :
  sample_in_slot 8 sixteen_marked = (Ok false, sixteen_marked).
Proof.
  apply (sample_in_slot_false_from_slot_8 8 sixteen_marked).
  - reflexivity.
  - lia.
  - apply (bool_decide_eq_true_1 (Forall is_byte (header sixteen_marked))).
    vm_compute. reflexivity.
  - vm_compute. lia.
Defined.


(** * Further properties *)

(** ** Inputs without an eligible sample *)






(** ** [pack] only appends *)

Lemma appended_refl f : appended f f.
Proof. repeat split; reflexivity || lia. Qed.

Lemma appended_trans f1 f2 f3 : appended f1 f2 → appended f2 f3 → appended f1 f3.
Proof.
  intros (Hp1 & Hs1 & Hd1) (Hp2 & Hs2 & Hd2). split; [lia|]. split; [lia|].
  intros i Hi. rewrite Hd2 by lia. apply Hd1, Hi.
Qed.

Lemma appended_write bs f : appended f (file_write bs f).
Proof.
  unfold appended, file_write. cbn [f_pos f_size f_data].
  split; [lia|]. split; [case_decide; lia|].
  intros i Hi. rewrite write_bytes_lookup. rewrite decide_False by lia.
  reflexivity.
Qed.

Lemma appended_seek p f f' :
  appended f f' → f_pos f ≤ p → appended f (file_seek p f').
Proof.
  intros (_ & Hs & Hd) Hp. split; [exact Hp|]. split; [exact Hs|exact Hd].
Qed.

Lemma mark_slot_outfile st : outfile (mark_slot st).2 = outfile st.
Proof.
  unfold mark_slot, header_get. mrun.
  destruct (py_index (header st) _); mrun; reflexivity.
Qed.

(** The last three statements of [process_file]: the count, the frames
    and the seek to the next slot. *)
Lemma write_payload_keeps_appended f0 s :
  nframes s ≤ 512 * 1024 →
  keeps (λ st, appended f0 (outfile st))
    (outfile_write (be32 (nframes s));;
     outfile_write (readframes s (nframes s));;
     outfile_seek_cur (512 * 1024 - nframes s - 4)).
Proof.
  intros Hn st HP. unfold outfile_write, outfile_seek_cur, outfile_seek. mrun.
  cbn [set_outfile outfile].
  pose proof (appended_write (be32 (nframes s)) (outfile st)) as Hw1.
  pose proof (appended_write (readframes s (nframes s))
                (file_write (be32 (nframes s)) (outfile st))) as Hw2.
  pose proof (appended_trans _ _ _ HP (appended_trans _ _ _ Hw1 Hw2)) as Hw.
  case_decide; mrun; cbn [set_outfile outfile snd]; [|exact Hw].
  eapply appended_trans; [exact HP|].
  apply appended_seek; [exact (appended_trans _ _ _ Hw1 Hw2)|].
  cbn [file_write f_pos]. rewrite length_be32. lia.
Qed.

(** Whatever the file and whatever the state, [process_file] leaves the
    bytes before the position of the output file as they are, and never
    moves the position back. *)
Lemma process_file_keeps_appended f0 path d :
  keeps (λ st, appended f0 (outfile st)) (process_file path d).
Proof.
  unfold process_file, print.
  apply keeps_bind; [keeps_step|intros _].
  destruct d as [|s]; [keeps_step|].
  do 3 (case_decide; [apply keeps_modify; intros ? ?; assumption|]).
  apply keeps_bind; [case_decide; keeps_step|intros _].
  apply keeps_bind; [keeps_step|intros n].
  apply keeps_bind; [keeps_step|intros _].
  apply keeps_bind;
    [intros st HP; rewrite mark_slot_outfile; exact HP|intros _].
  apply keeps_bind; [keeps_step|intros _].
  unfold struct_pack_I. case_decide.
  - eapply keeps_ext; [intros st; reflexivity|].
    apply write_payload_keeps_appended. lia.
  - apply (keeps_ext _ _ (raise StructError)); [intros st; reflexivity|].
    apply keeps_raise.
Qed.

Lemma run_step_keeps_appended f0 s :
  keeps (λ st, appended f0 (outfile st)) (run_step s).
Proof.
  destruct s; cbn [run_step]; [|apply process_file_keeps_appended|];
    unfold print; keeps_step.
Qed.

(** [process_file] and [process_dir] only append to the output file:
    whatever the inputs and whether they return or raise, the bytes before
    the position the file had are as they were, the file is not shorter
    and its position is not further back. *)
Theorem pack_steps_only_append :
  (∀ path d st, appended (outfile st) (outfile (process_file path d st).2)) ∧
  (∀ path n st, appended (outfile st) (outfile (process_dir path n st).2)).
Proof.
  split.
  - intros path d st.
    apply (process_file_keeps_appended (outfile st) path d st), appended_refl.
  - intros path n st. rewrite process_dir_schedule.
    apply (keeps_for_each (λ st', appended (outfile st) (outfile st'))).
    + intros s. apply run_step_keeps_appended.
    + apply appended_refl.
Qed.

(** ** When [pack] raises *)

(** The output file while the loop of [pack] runs: nothing is written
    before offset 512. *)
Lemma pack_loop_no_header steps :
  ∀ i, i < 512 →
    f_data (outfile (for_each steps run_step pack_start).2) !! i = None.
Proof.
  intros i Hi.
  assert (Happ : appended (outfile pack_start)
                   (outfile (for_each steps run_step pack_start).2)).
  { apply (keeps_for_each (λ st', appended (outfile pack_start) (outfile st'))).
    - intros s. apply run_step_keeps_appended.
    - apply appended_refl. }
  destruct Happ as (_ & _ & Hd). rewrite Hd by (cbn; lia). reflexivity.
Qed.

Lemma slice_head {A} (h : list A) a b c d :
  slice 0 4 h = [a; b; c; d] → h !! 0%nat = Some a.
Proof. destruct h as [|x h]; cbn; [discriminate|]. congruence. Qed.

(** When [pack] raises, whatever the exception, the header was never
    written: no byte before offset 512 is in the output file.  [unpack] on
    such a file (a regular file, into a directory) finds no magic: it
    prints that the WTPA data was not found and writes no sample file. *)
Theorem pack_raise_leaves_no_header infiles e sys src dest mk samples :
  (pack infiles init).1 = Raise e → src ≠ "" → dest ≠ "" →
  (∀ i, i < 512 → f_data (outfile (pack infiles init).2) !! i = None) ∧
  ∃ r, unpack sys src regular_file_info (outfile (pack infiles init).2)
              dest directory_info mk samples init = (Ok tt, r) ∧
    console r = [ReadingFromFile src; ErrorWTPANotFound] ∧
    dest_files r = [].
Proof.
  intros Hraise Hsrc Hdest. rewrite pack_run in *.
  pose proof (pack_loop_no_header (pack_steps infiles)) as Hnone.
  destruct (for_each (pack_steps infiles) run_step pack_start)
    as [[[]|e'] st1]; [discriminate|].
  cbn [fst snd] in *. split; [exact Hnone|].
  set (f := outfile st1) in *.
  assert (Hmagic : slice 0 4 (file_read 512 (file_seek 0 f)).1
                   ≠ bytes_of_string "WTPA").
  { intros Heq. apply slice_head in Heq.
    unfold file_read in Heq. cbn [fst file_seek f_pos] in Heq.
    rewrite list_lookup_fmap in Heq.
    destruct (seqZ 0 _ !! 0%nat) as [z|] eqn:Hz; [|discriminate].
    apply lookup_seqZ in Hz as [-> _].
    cbn [fmap option_fmap option_map] in Heq.
    change (0 + Z.of_nat 0) with 0 in Heq.
    unfold byte_at in Heq. cbn [file_seek f_data] in Heq.
    rewrite (Hnone 0) in Heq by lia. discriminate. }
  eexists. split.
  - rewrite (unpack_run sys src regular_file_info f dest directory_info mk
               samples init src (add_console (ReadingFromFile src) init)
               dest (add_console (ReadingFromFile src) init)
               (check_src_regular _ _ _) (check_dest_directory _ _ _)
               Hsrc Hdest).
    rewrite bool_decide_eq_true_2 by exact Hmagic. rewrite run_print.
    reflexivity.
  - split; reflexivity.
Qed.

(** ** More samples than the header has bits for *)

(** The loop of [pack] with more eligible samples than fit: it raises
    [IndexError] when it comes to sample 3984. *)
Lemma run_steps_overflow steps : ∀ st,
  pack_inv st → Forall step_wf steps → num_samples st ≤ 3984 →
  3984 < num_samples st + Z.of_nat (length (packed_samples steps)) →
  (for_each steps run_step st).1 = Raise IndexError.
Proof.
  induction steps as [|s steps IH]; intros st Hinv Hwf Hle Hcap.
  - cbn in Hcap. lia.
  - apply Forall_cons in Hwf as [Hs Hwf].
    cbn [for_each]. rewrite run_bind.
    unfold packed_samples in *. cbn [omap list_omap] in Hcap.
    destruct (packed_sample s) as [a|] eqn:Hps.
    + cbn [length] in Hcap.
      destruct (decide (num_samples st < 3984)) as [Hlt|Hge].
      * destruct (run_step_accept s a st Hps Hinv Hs Hlt) as [p Hrun].
        rewrite Hrun. cbv beta iota.
        apply IH; [apply accept_pack_inv, Hinv|exact Hwf| |];
          cbn [accept num_samples]; lia.
      * destruct s as [p|p [|a']|p]; try discriminate Hps.
        cbn in Hps. case_decide as Hel; [|discriminate].
        cbn [run_step].
        pose proof (process_file_index_error p a' st Hel Hinv ltac:(lia)) as He.
        destruct (process_file p (Sample a') st) as [[[]|e] st1];
          cbn [fst] in *; [discriminate|]. exact He.
    + destruct (run_step_skip s st Hps) as [ms Hrun].
      rewrite Hrun. cbv beta iota.
      apply IH; [apply pack_inv_add_lines, Hinv|exact Hwf|exact Hle|exact Hcap].
Qed.

(** Given more than 3984 eligible samples, [pack] does not return: the
    bit of sample 3984 would be in byte 514 of the 514-byte header, and
    the [IndexError] of the assignment is not caught. *)
Theorem pack_raises_past_3984_samples infiles :
  Forall step_wf (pack_steps infiles) →
  3984 < Z.of_nat (length (packed_samples (pack_steps infiles))) →
  (pack infiles init).1 = Raise IndexError.
Proof.
  intros Hwf Hcap. rewrite pack_run.
  pose proof (run_steps_overflow (pack_steps infiles) pack_start
                pack_start_inv Hwf) as Hover.
  cbn [pack_start set_outfile set_header init num_samples] in Hover.
  specialize (Hover ltac:(lia) ltac:(lia)).
  destruct (for_each (pack_steps infiles) run_step pack_start)
    as [[[]|e] st1]; cbn [fst] in *; [discriminate|exact Hover].
Qed.

Lemma pack_raises_past_3984_samples_witness :
  (pack too_many_samples init).1 = Raise IndexError.
Proof.
  apply (pack_raises_past_3984_samples too_many_samples).
  - apply (bool_decide_eq_true_1 (Forall step_wf (pack_steps too_many_samples))).
    vm_compute. reflexivity.
  - vm_compute. reflexivity.
Defined.

Lemma pack_raise_leaves_no_header_witness :
  (∀ i, i < 512 →
     f_data (outfile (pack too_many_samples init).2) !! i = None) ∧
  ∃ r, unpack Linux "a.bin" regular_file_info
              (outfile (pack too_many_samples init).2)
              "out" directory_info true 512 init = (Ok tt, r) ∧
    console r = [ReadingFromFile "a.bin"; ErrorWTPANotFound] ∧
    dest_files r = [].
Proof.
  apply (pack_raise_leaves_no_header too_many_samples IndexError Linux
           "a.bin" "out" true 512).
  - vm_compute. reflexivity.
  - discriminate.
  - discriminate.
Defined.

(** ** [unpack] only reads *)




(** ** The scan over the slots the command line allows *)

(** [unpack] on a regular file that starts with the two magics, into a
    directory: the scan, from a state with the header of the file. *)
Lemma unpack_accepted_run sys src data dest mk samples st :
  src ≠ "" → dest ≠ "" →
  slice 0 8 (file_read 512 (file_seek 0 data)).1 = bytes_of_string "WTPASAMP" →
  unpack sys src regular_file_info data dest directory_info mk samples st =
    for_each (seqZ 0 samples) (unpack_slot dest)
      (set_header (file_read 512 (file_seek 0 data)).1
         (set_outfile (file_read 512 (file_seek 0 data)).2
            (add_console (ReadingFromFile src) st))).
Proof.
  intros Hsrc Hdest Hmagic.
  rewrite (unpack_run sys src regular_file_info data dest directory_info mk
             samples st src (add_console (ReadingFromFile src) st)
             dest (add_console (ReadingFromFile src) st)
             (check_src_regular _ _ _) (check_dest_directory _ _ _)
             Hsrc Hdest).
  apply magic_split in Hmagic as [Hw Hs].
  rewrite !bool_decide_eq_false_2; [reflexivity| |];
    intros Hne; apply Hne; assumption.
Qed.




(** ** What comes back from a larger archive *)

Lemma imap_take {A B} (f : nat → A → B) (n : nat) (l : list A) :
  imap f (take n l) = take n (imap f l).
Proof.
  apply list_eq. intros i. rewrite list_lookup_imap.
  destruct (decide (i < n)%nat) as [Hi|Hi].
  - rewrite !lookup_take_lt by exact Hi. rewrite list_lookup_imap. reflexivity.
  - rewrite !lookup_take_ge by lia. reflexivity.
Qed.

(** [pack], then [unpack]: of up to 3968 packed samples, the first eight
    come back (fewer when [unpack] is asked for fewer slots), and no
    other.  Those that come back must have at most 524284 frames, and the
    first fewer than 65536. *)
Theorem unpack_after_pack_first_eight sys infiles src dest mk samples :
  Forall step_wf (pack_steps infiles) →
  (length (packed_samples (pack_steps infiles)) ≤ 3968)%nat →
  Forall (λ a, nframes a ≤ 524284)
         (take 8 (packed_samples (pack_steps infiles))) →
  (∀ a, packed_samples (pack_steps infiles) !! 0%nat = Some a →
        nframes a < 65536) →
  src ≠ "" → dest ≠ "" → 0 ≤ samples ≤ 3968 →
  ∃ st' r, pack infiles init = (Ok tt, st') ∧
    unpack sys src regular_file_info (outfile st') dest directory_info mk
           samples init = (Ok tt, r) ∧
    dest_files r =
      imap (λ k a, WrittenSample
                     (path_join dest (sample_file_name (Z.of_nat k)))
                     1 1 22050 (nframes a) (frames a))
           (take (Z.to_nat (Z.min 8 samples))
                 (packed_samples (pack_steps infiles))).
Proof.
  intros Hwf Hcount Hfit Hfirst Hsrc Hdest Hsamples.
  set (l := packed_samples (pack_steps infiles)) in *.
  destruct (pack_spec infiles Hwf) as
    (st' & Hrun & Hn & Htoc & Hh & Hd & Hsz & Hhdr & Hslots); [fold l; lia|].
  fold l in Hn, Hh, Hslots.
  set (f := outfile st') in *. set (n := Z.of_nat (length l)) in *.
  assert (Hlen : length (header st') = 514%nat)
    by (rewrite Hh, length_mark_all; reflexivity).
  assert (Hbyte : Forall is_byte (header st'))
    by (rewrite Hh; apply mark_all_is_byte, magic_header_is_byte).
  assert (Hread : (file_read 512 (file_seek 0 f)).1 = take 512 (header st')).
  { apply read_header; [lia|lia|]. intros i Hi. apply Hhdr. lia. }
  assert (Hmagic : slice 0 8 (file_read 512 (file_seek 0 f)).1
                   = bytes_of_string "WTPASAMP").
  { rewrite Hread. unfold slice. rewrite drop_0, take_take.
    change (8 - 0)%nat with 8%nat. change (8 `min` 512)%nat with 8%nat.
    apply list_eq. intros i. destruct (decide (i < 8)%nat) as [Hi|Hi].
    - rewrite lookup_take_lt by exact Hi. rewrite Hh.
      rewrite mark_all_lookup_outside; [|lia|].
      + do 8 (destruct i as [|i]; [reflexivity|]). lia.
      + intros k Hk. pose proof (Z.div_pos k 8). lia.
    - rewrite !lookup_ge_None_2; [reflexivity|cbn; lia|].
      rewrite length_take. lia. }
  assert (Hnl : n = Z.of_nat (length l)) by reflexivity.
  set (m := Z.min n (Z.min 8 samples)).
  assert (Hm : m = Z.min n (Z.min 8 samples)) by reflexivity.
  assert (Hfound : ∀ x, 0 ≤ x < samples →
    (found (take 512 (header st')) x = true ↔ x < m)).
  { intros x Hx. unfold found.
    assert (x / 8 < 496) by (apply Z.div_lt_upper_bound; lia).
    pose proof (Z.div_pos x 8).
    rewrite header_bit_take by lia.
    rewrite Hh, header_bit_packed by lia.
    rewrite andb_true_iff, !bool_decide_eq_true. lia. }
  assert (Hslot : ∀ (k : nat) a, (k < 8)%nat → l !! k = Some a →
    slot_offset (Z.of_nat k) + Z.of_nat (length (payload a)) ≤ f_size f ∧
    extracted dest f (Z.of_nat k) =
      WrittenSample (path_join dest (sample_file_name (Z.of_nat k)))
                    1 1 22050 (nframes a) (frames a)).
  { intros k a Hk8 Hk. destruct (Hslots k a Hk) as [Hsize Hbytes].
    split; [exact Hsize|].
    pose proof (Forall_lookup_1 _ _ _ _ (packed_samples_wf _ Hwf) Hk)
      as [Hawf Hel].
    assert (Hafit : nframes a ≤ 524284).
    { apply (Forall_lookup_1 _ _ k a Hfit).
      rewrite lookup_take_lt by exact Hk8. exact Hk. }
    apply extracted_packed; try assumption.
    intros i b Hb.
    assert (Hi : Z.of_nat i < 512 * 1024).
    { apply lookup_lt_Some in Hb. pose proof (length_payload a).
      destruct Hawf as (_ & Hfl & _). destruct Hel as (Hw & Hc & _).
      rewrite Hw, Hc, !Z.mul_1_r in Hfl. lia. }
    destruct (decide (514 ≤ slot_offset (Z.of_nat k) + Z.of_nat i)) as [Hhi|Hlo].
    { apply Hbytes; assumption. }
    assert (k = 0%nat) as -> by (unfold slot_offset in Hlo; lia).
    assert (Hsmall : 0 ≤ nframes a < 65536).
    { destruct Hawf as (Hnf & _). specialize (Hfirst a Hk). lia. }
    unfold payload in Hb. rewrite be32_small in Hb by exact Hsmall.
    assert (Hz : ∀ j : nat, (512 ≤ j < 514)%nat → byte_at f (Z.of_nat j) = 0).
    { intros j Hj. pose proof (Hhdr j ltac:(lia)) as Hbj.
      rewrite Hh, mark_all_lookup_outside in Hbj; [| lia |].
      - assert (j = 512 ∨ j = 513)%nat as [-> | ->] by lia.
        + rewrite (proj1 magic_header_tail) in Hbj. congruence.
        + rewrite (proj2 magic_header_tail) in Hbj. congruence.
      - intros x Hx. assert (x / 8 < 496) by (apply Z.div_lt_upper_bound; lia).
        pose proof (Z.div_pos x 8). lia. }
    unfold slot_offset in *.
    destruct i as [|[|i]]; [| |lia]; cbn in Hb; injection Hb as <-.
    - apply (Hz 512%nat). lia.
    - apply (Hz 513%nat). lia. }
  rewrite <- Hread in Hfound.
  pose proof (unpack_accepted_run sys src f dest mk samples init
                Hsrc Hdest Hmagic) as Hrun3.
  set (st3 := set_header _ _) in Hrun3.
  destruct (scan_spec dest (seqZ 0 samples) st3) as (r & Hscan & Hfiles).
  { reflexivity. }
  { cbn [st3 set_header header]. rewrite Hread. apply Forall_take, Hbyte. }
  { apply Forall_seqZ. intros x Hx. cbn [st3 set_header header].
    split; [lia|]. split.
    - rewrite Hread, length_take, Hlen.
      assert (x / 8 < 496) by (apply Z.div_lt_upper_bound; lia).
      pose proof (Z.div_pos x 8). lia.
    - intros Hf. apply Hfound in Hf; [|lia].
      destruct (lookup_lt_is_Some_2 l (Z.to_nat x)) as [a Ha]; [lia|].
      assert (Hx8 : (Z.to_nat x < 8)%nat) by lia.
      destruct (Hslot (Z.to_nat x) a Hx8 Ha) as [Hsize _].
      rewrite Z2Nat.id in Hsize by lia.
      pose proof (length_payload a).
      change (f_size (outfile st3)) with (f_size f). lia. }
  exists st', r. split; [exact Hrun|]. split; [exact (eq_trans Hrun3 Hscan)|].
  rewrite Hfiles. cbn [st3 set_header header].
  change (dest_files (set_header _ _)) with (@nil written_sample).
  rewrite app_nil_l.
  rewrite (filter_seqZ_below _ m samples); [|lia|].
  - apply list_eq. intros i. rewrite list_lookup_fmap, list_lookup_imap.
    destruct (decide (Z.of_nat i < m)) as [Him|Him].
    + rewrite lookup_seqZ_lt by exact Him.
      rewrite lookup_take_lt by lia.
      destruct (lookup_lt_is_Some_2 l i) as [a Ha]; [lia|].
      rewrite Ha. cbn [fmap option_fmap option_map]. f_equal.
      rewrite Z.add_0_l.
      rewrite (extracted_ext dest (outfile st3) f) by reflexivity.
      apply Hslot; [lia|exact Ha].
    + rewrite lookup_seqZ_ge by lia. cbn [fmap option_fmap option_map].
      destruct (decide (i < Z.to_nat (Z.min 8 samples))%nat) as [Hi|Hi].
      * rewrite lookup_take_lt by exact Hi.
        rewrite lookup_ge_None_2 by lia. reflexivity.
      * rewrite lookup_take_ge by lia. reflexivity.
  - intros x Hx. apply Hfound. lia.
Qed.

Lemma unpack_after_pack_first_eight_witness :
  ∃ st' r, pack ten_samples init = (Ok tt, st') ∧
    unpack Linux "a.bin" regular_file_info (outfile st') "out" directory_info
           true 512 init = (Ok tt, r) ∧
    dest_files r =
      imap (λ k a, WrittenSample
                     (path_join "out" (sample_file_name (Z.of_nat k)))
                     1 1 22050 (nframes a) (frames a))
           (take (Z.to_nat (Z.min 8 512))
                 (packed_samples (pack_steps ten_samples))).
Proof.
  apply (unpack_after_pack_first_eight Linux ten_samples "a.bin" "out" true 512).
  - apply (bool_decide_eq_true_1 (Forall step_wf (pack_steps ten_samples))).
    vm_compute. reflexivity.
  - vm_compute. lia.
  - apply (bool_decide_eq_true_1
             (Forall (λ a, nframes a ≤ 524284)
                (take 8 (packed_samples (pack_steps ten_samples))))).
    vm_compute. reflexivity.
  - intros a Ha. vm_compute in Ha. injection Ha as <-. vm_compute. reflexivity.
  - discriminate.
  - discriminate.
  - lia.
Defined.

(** ** Paths [unpack] refuses *)

Lemma add_console_add_lines m st : add_console m st = add_lines [m] st.
Proof. reflexivity. Qed.





(** ** Archives [unpack] cannot read *)

Lemma scan_raises dest x0 samples st e st' :
  0 ≤ x0 < samples →
  (∀ x, 0 ≤ x < x0 → sample_in_slot x st = (Ok false, st)) →
  unpack_slot dest x0 st = (Raise e, st') →
  for_each (seqZ 0 samples) (unpack_slot dest) st = (Raise e, st').
Proof.
  intros Hx0 Habs Hraise.
  replace samples with (x0 + (samples - x0)) by lia.
  rewrite seqZ_app by lia. rewrite for_each_app, run_bind.
  assert (Hpre : for_each (seqZ 0 x0) (unpack_slot dest) st = (Ok tt, st)).
  { assert (H : ∀ xs, Forall (λ x, 0 ≤ x < x0) xs →
                for_each xs (unpack_slot dest) st = (Ok tt, st)).
    { induction xs as [|x xs IH]; intros Hxs; [reflexivity|].
      apply Forall_cons in Hxs as [Hx Hxs]. cbn [for_each].
      rewrite run_bind, (unpack_slot_absent dest x st (Habs x Hx)).
      apply IH, Hxs. }
    apply H, Forall_seqZ. intros x Hx. lia. }
  rewrite Hpre. cbv beta iota.
  rewrite (seqZ_cons (0 + x0)) by lia. cbn [for_each].
  rewrite run_bind, Z.add_0_l, Hraise. reflexivity.
Qed.

Lemma sample_in_slot_index_error x st :
  0 ≤ toc_offset st + x / 8 →
  (length (header st) ≤ Z.to_nat (toc_offset st + x / 8))%nat →
  sample_in_slot x st = (Raise IndexError, st).
Proof.
  intros Hpos Hlen. unfold sample_in_slot, header_get. mrun.
  unfold py_index. rewrite decide_True by exact Hpos.
  rewrite lookup_ge_None_2 by exact Hlen. reflexivity.
Qed.

Lemma struct_unpack_I_short bs st :
  (length bs < 4)%nat → struct_unpack_I bs st = (Raise StructError, st).
Proof.
  intros Hlen. do 4 (destruct bs as [|? bs]; [reflexivity|]).
  cbn in Hlen. lia.
Qed.

Lemma header_bit_in_range h x :
  header_bit h x = true → (Z.to_nat (16 + x / 8) < length h)%nat.
Proof.
  unfold header_bit. destruct (h !! _) eqn:Hl; [|discriminate].
  intros _. eapply lookup_lt_Some, Hl.
Qed.

(** A source cut off inside the bitmap: when no slot before the cut is
    found and the scan goes as far as the cut, [unpack] raises
    [IndexError], and has written no sample file. *)
Theorem unpack_truncated_header sys src data dest mk samples st :
  src ≠ "" → dest ≠ "" → toc_offset st = 16 →
  slice 0 8 (file_read 512 (file_seek 0 data)).1 = bytes_of_string "WTPASAMP" →
  Forall is_byte (file_read 512 (file_seek 0 data)).1 →
  f_size data < 512 →
  0 < samples → 8 * (f_size data - 16) < samples →
  (∀ x, 0 ≤ x < 8 * (f_size data - 16) →
        found (file_read 512 (file_seek 0 data)).1 x = false) →
  ∃ r, unpack sys src regular_file_info data dest directory_info mk samples st
         = (Raise IndexError, r) ∧
       dest_files r = dest_files st.
Proof.
  intros Hsrc Hdest Htoc Hmagic Hbyte Hsize Hpos Hreach Hnone.
  rewrite (unpack_accepted_run sys src data dest mk samples st Hsrc Hdest Hmagic).
  set (h := (file_read 512 (file_seek 0 data)).1) in *.
  set (st3 := set_header h _).
  assert (Hlen : Z.of_nat (length h) = Z.max 0 (f_size data)).
  { unfold h. rewrite file_read_length. unfold read_count.
    cbn [file_seek f_size f_pos]. lia. }
  set (x0 := Z.max 0 (8 * (f_size data - 16))).
  assert (Hx0 : x0 = Z.max 0 (8 * (f_size data - 16))) by reflexivity.
  clearbody x0.
  exists st3. split; [|reflexivity].
  apply (scan_raises dest x0); [lia| |].
  - intros x Hx.
    rewrite (sample_in_slot_found x st3); [|exact Htoc|lia|exact Hbyte|].
    + cbn [st3 set_header header]. rewrite Hnone by lia. reflexivity.
    + cbn [st3 set_header header].
      assert (x / 8 < f_size data - 16)
        by (apply Z.div_lt_upper_bound; lia).
      pose proof (Z.div_pos x 8). lia.
  - unfold unpack_slot. rewrite run_bind.
    rewrite sample_in_slot_index_error; [reflexivity| |].
    + change (toc_offset st3) with (toc_offset st). rewrite Htoc.
      pose proof (Z.div_pos x0 8). lia.
    + change (toc_offset st3) with (toc_offset st). rewrite Htoc.
      cbn [st3 set_header header].
      assert (f_size data - 16 ≤ x0 / 8)
        by (apply Z.div_le_lower_bound; lia).
      pose proof (Z.div_pos x0 8). lia.
Qed.

Lemma unpack_truncated_header_witness :
  ∃ r, unpack Linux "a.bin" regular_file_info magic_only_archive "out"
              directory_info true 512 init = (Raise IndexError, r) ∧
       dest_files r = dest_files init.
Proof.
  apply (unpack_truncated_header Linux "a.bin" magic_only_archive "out"
           true 512 init).
  - discriminate.
  - discriminate.
  - reflexivity.
  - vm_compute. reflexivity.
  - apply (bool_decide_eq_true_1
       (Forall is_byte (file_read 512 (file_seek 0 magic_only_archive)).1)).
    vm_compute. reflexivity.
  - vm_compute. reflexivity.
  - lia.
  - vm_compute. reflexivity.
  - intros x Hx. change (f_size magic_only_archive) with 8 in Hx. lia.
Defined.

(** The first slot the scan finds, when the source ends before the four
    bytes of its count: [unpack] raises [struct.error], and has written
    no sample file. *)
Theorem unpack_found_slot_without_count sys src data dest mk x0 samples st :
  src ≠ "" → dest ≠ "" → toc_offset st = 16 →
  slice 0 8 (file_read 512 (file_seek 0 data)).1 = bytes_of_string "WTPASAMP" →
  Forall is_byte (file_read 512 (file_seek 0 data)).1 →
  0 ≤ x0 < samples →
  found (file_read 512 (file_seek 0 data)).1 x0 = true →
  (∀ x, 0 ≤ x < x0 → found (file_read 512 (file_seek 0 data)).1 x = false) →
  f_size data < slot_offset x0 + 4 →
  ∃ r, unpack sys src regular_file_info data dest directory_info mk samples st
         = (Raise StructError, r) ∧
       dest_files r = dest_files st.
Proof.
  intros Hsrc Hdest Htoc Hmagic Hbyte Hx0 Hfound Hnone Hsize.
  rewrite (unpack_accepted_run sys src data dest mk samples st Hsrc Hdest Hmagic).
  set (h := (file_read 512 (file_seek 0 data)).1) in *.
  set (st3 := set_header h _).
  assert (Hin : (Z.to_nat (16 + x0 / 8) < length h)%nat).
  { apply header_bit_in_range. unfold found in Hfound.
    apply andb_true_iff in Hfound as [_ Hbit]. exact Hbit. }
  assert (Hsis : ∀ x, 0 ≤ x ≤ x0 →
            sample_in_slot x st3 = (Ok (found h x), st3)).
  { intros x Hx. apply sample_in_slot_found; [exact Htoc|lia|exact Hbyte|].
    cbn [st3 set_header header].
    assert (x / 8 ≤ x0 / 8) by (apply Z.div_le_mono; lia).
    pose proof (Z.div_pos x 8). lia. }
  eexists. split.
  - apply (scan_raises dest x0); [exact Hx0| |].
    + intros x Hx. rewrite Hsis by lia. rewrite Hnone by exact Hx. reflexivity.
    + unfold unpack_slot. rewrite run_bind, Hsis, Hfound by lia.
      cbv beta iota. rewrite run_bind, seek_to_slot_ok by lia. cbv beta iota.
      rewrite run_bind, run_outfile_read. cbv beta iota.
      rewrite run_bind, struct_unpack_I_short; [reflexivity|].
      apply Nat2Z.inj_lt. rewrite file_read_length. unfold read_count.
      cbn [set_outfile outfile file_seek f_size f_pos st3 set_header
           add_console file_read snd].
      lia.
  - reflexivity.
Qed.

Lemma unpack_found_slot_without_count_witness :
  ∃ r, unpack Linux "a.bin" regular_file_info header_only_archive "out"
              directory_info true 512 init = (Raise StructError, r) ∧
       dest_files r = dest_files init.
Proof.
  apply (unpack_found_slot_without_count Linux "a.bin" header_only_archive
           "out" true 0 512 init).
  - discriminate.
  - discriminate.
  - reflexivity.
  - vm_compute. reflexivity.
  - apply (bool_decide_eq_true_1
       (Forall is_byte (file_read 512 (file_seek 0 header_only_archive)).1)).
    vm_compute. reflexivity.
  - lia.
  - vm_compute. reflexivity.
  - intros x Hx. lia.
  - vm_compute. reflexivity.
Defined.

(** ** The order of a directory listing *)

Lemma string_leb_trans s1 : ∀ s2 s3,
  String.leb s1 s2 = true → String.leb s2 s3 = true → String.leb s1 s3 = true.
Proof.
  unfold String.leb.
  induction s1 as [|c1 s1 IH]; intros [|c2 s2] [|c3 s3]; cbn;
    try (intros; reflexivity || discriminate).
  unfold Ascii.compare.
  destruct (N.compare_spec (Ascii.N_of_ascii c1) (Ascii.N_of_ascii c2)) as [E12|L12|G12];
  destruct (N.compare_spec (Ascii.N_of_ascii c2) (Ascii.N_of_ascii c3)) as [E23|L23|G23];
  destruct (N.compare_spec (Ascii.N_of_ascii c1) (Ascii.N_of_ascii c3)) as [E13|L13|G13];
    try (intros; reflexivity || discriminate); try lia.
  apply IH.
Qed.

Global Instance name_le_trans {A} : Transitive (@name_le A).
Proof.
  intros a b c Hab Hbc. unfold name_le in *.
  apply Is_true_true. apply Is_true_true in Hab, Hbc.
  exact (string_leb_trans _ _ _ Hab Hbc).
Qed.

Lemma same_name_same_entry {A} (l : list (string * A)) x y :
  NoDup l.*1 → x ∈ l → y ∈ l → x.1 = y.1 → x = y.
Proof.
  intros Hnd Hx Hy Hxy.
  apply list_elem_of_lookup in Hx as [i Hi], Hy as [j Hj].
  assert (i = j) as ->.
  { apply (NoDup_lookup l.*1 i j x.1 Hnd).
    - rewrite list_lookup_fmap, Hi. reflexivity.
    - rewrite list_lookup_fmap, Hj, Hxy. reflexivity. }
  congruence.
Qed.

Lemma sort_by_name_unique {A} (l1 l2 : list (string * A)) :
  l1 ≡ₚ l2 → NoDup l1.*1 → merge_sort name_le l1 = merge_sort name_le l2.
Proof.
  intros Hp Hnd.
  apply (Sorted_unique_strong name_le).
  - intros x1 x2 H1 H2 H12 H21.
    apply (same_name_same_entry l1); [exact Hnd| | |].
    + rewrite <- (merge_sort_Permutation name_le l1). exact H1.
    + rewrite Hp, <- (merge_sort_Permutation name_le l2). exact H2.
    + unfold name_le in *. apply Is_true_true in H12, H21.
      apply String.leb_antisym; assumption.
  - apply (Sorted_merge_sort name_le).
  - apply (Sorted_merge_sort name_le).
  - rewrite !merge_sort_Permutation. exact Hp.
Qed.

Lemma NoDup_omap_names {A B} (g : string * A → option (string * B)) l :
  (∀ e e', g e = Some e' → e'.1 = e.1) →
  NoDup l.*1 → NoDup (omap g l).*1.
Proof.
  intros Hg. induction l as [|e l IH]; intros Hnd; [constructor|].
  cbn [fmap list_fmap] in Hnd. apply NoDup_cons in Hnd as [Hne Hnd].
  cbn [omap list_omap]. destruct (g e) as [e'|] eqn:He; [|apply IH, Hnd].
  cbn [fmap list_fmap]. apply NoDup_cons. split; [|apply IH, Hnd].
  intros Hin. apply Hne. rewrite (Hg _ _ He) in Hin.
  apply list_elem_of_fmap in Hin as (x & Hx1 & Hx).
  apply list_elem_of_omap in Hx as (y & Hy & Hgy).
  rewrite Hx1, (Hg _ _ Hgy). apply list_elem_of_fmap. exists y. split; auto.
Qed.

(** [process_dir] does not depend on the order in which [os.listdir]
    gives the entries of the directory: two listings of the same entries,
    the names distinct, are processed alike. *)
Theorem process_dir_any_listing_order path entries entries' st :
  entries ≡ₚ entries' → NoDup entries.*1 →
  process_dir path (Directory entries) st
    = process_dir path (Directory entries') st.
Proof.
  intros Hp Hnd. cbn [process_dir].
  rewrite (sort_by_name_unique (regular_files entries) (regular_files entries')).
  - rewrite (sort_by_name_unique
               (subdirectories (λ d c, process_dir (path_join path d) c) entries)
               (subdirectories (λ d c, process_dir (path_join path d) c) entries')).
    + reflexivity.
    + unfold subdirectories. rewrite Hp. reflexivity.
    + apply NoDup_omap_names; [|exact Hnd].
      intros e e' He. destruct (e.2); inversion He. reflexivity.
  - unfold regular_files. rewrite Hp. reflexivity.
  - apply NoDup_omap_names; [|exact Hnd].
    intros e e' He. destruct (e.2); inversion He. reflexivity.
Qed.

Lemma process_dir_any_listing_order_witness :
  process_dir "d" (Directory example_entries) init
    = process_dir "d" (Directory (reverse example_entries)) init.
Proof.
  apply (process_dir_any_listing_order "d" example_entries
           (reverse example_entries) init).
  - symmetry. apply reverse_Permutation.
  - apply (bool_decide_eq_true_1 (NoDup example_entries.*1)).
    vm_compute. reflexivity.
Defined.

(** ** The bitmap, written and read *)



(** ** The size of the archive *)

Lemma run_steps_size steps : ∀ st,
  pack_inv st → Forall step_wf steps →
  num_samples st + Z.of_nat (length (packed_samples steps)) ≤ 3984 →
  f_size (outfile st) ≤ slot_offset (num_samples st) + 4 →
  f_size (outfile (for_each steps run_step st).2) =
    match last (packed_samples steps) with
    | Some a => slot_offset (num_samples st
                             + Z.of_nat (length (packed_samples steps)) - 1)
                + 4 + nframes a
    | None => f_size (outfile st)
    end.
Proof.
  induction steps as [|s steps IH]; intros st Hinv Hwf Hcap Hsize;
    [reflexivity|].
  apply Forall_cons in Hwf as [Hs Hwf].
  cbn [for_each]. rewrite run_bind.
  unfold packed_samples in *. cbn [omap list_omap] in *.
  destruct (packed_sample s) as [a|] eqn:Hps.
  - cbn [length] in Hcap |- *.
    destruct (run_step_accept s a st Hps Hinv Hs) as [p Hrun]; [lia|].
    rewrite Hrun. cbv beta iota.
    pose proof (accept_pack_inv p a st Hinv) as Hinv1.
    pose proof (accept_size p a st) as Hsz1.
    pose proof (inv_pos _ Hinv) as Hpos.
    pose proof (length_payload a) as Hpl.
    assert (Ha : aiff_wf a ∧ eligible a).
    { pose proof (packed_samples_wf [s] (Forall_cons_2 _ _ _ Hs (Forall_nil_2 _)))
        as H. unfold packed_samples in H. cbn [omap list_omap] in H.
      rewrite Hps in H. apply Forall_cons in H as [H _]. exact H. }
    destruct Ha as [(Hnf & Hfl & _) (Hw & Hc & Hmax)].
    rewrite Hw, Hc, !Z.mul_1_r in Hfl.
    assert (Hsz1' : f_size (outfile (accept p a st))
                    = slot_offset (num_samples st) + 4 + nframes a) by lia.
    rewrite (IH (accept p a st) Hinv1 Hwf);
      [| cbn [accept num_samples]; lia
       | cbn [accept num_samples]; unfold slot_offset in *; lia].
    rewrite last_cons. cbn [accept num_samples].
    destruct (last (omap packed_sample steps)) as [b|] eqn:Hlast.
    + f_equal. f_equal. f_equal. lia.
    + apply last_None in Hlast. rewrite Hlast. cbn [length].
      rewrite Hsz1'. f_equal. f_equal. f_equal. lia.
  - destruct (run_step_skip s st Hps) as [ms Hrun]. rewrite Hrun.
    cbv beta iota.
    rewrite (IH (add_lines ms st)); [reflexivity| |exact Hwf|exact Hcap|exact Hsize].
    destruct Hinv. split; assumption.
Qed.

(** The archive [pack] writes ends with the frames of the last packed
    sample: the last slot is not filled up to its 512K bytes. *)
Theorem pack_output_ends_after_last_sample infiles a :
  Forall step_wf (pack_steps infiles) →
  (length (packed_samples (pack_steps infiles)) ≤ 3984)%nat →
  last (packed_samples (pack_steps infiles)) = Some a →
  ∃ st', pack infiles init = (Ok tt, st') ∧
    f_size (outfile st') =
      slot_offset (Z.of_nat (length (packed_samples (pack_steps infiles))) - 1)
      + 4 + nframes a.
Proof.
  intros Hwf Hcap Hlast.
  destruct (run_steps_spec (pack_steps infiles) pack_start pack_start_inv Hwf)
    as (st1 & Hrun & _); [cbn [pack_start num_samples set_outfile set_header init]; lia|].
  pose proof (run_steps_size (pack_steps infiles) pack_start pack_start_inv Hwf)
    as Hsz.
  rewrite Hrun, Hlast in Hsz. cbn [snd] in Hsz.
  change (num_samples pack_start) with 0 in Hsz.
  rewrite Z.add_0_l in Hsz.
  rewrite pack_run, Hrun.
  eexists. split; [reflexivity|].
  cbn [set_outfile outfile file_write file_seek f_size f_pos].
  assert (Hlen : length (header st1) = 514%nat).
  { destruct (run_steps_spec (pack_steps infiles) pack_start pack_start_inv Hwf)
      as (st2 & Hrun2 & Hinv2 & _);
      [cbn [pack_start num_samples set_outfile set_header init]; lia|].
    rewrite Hrun in Hrun2. injection Hrun2 as <-. apply (inv_header _ Hinv2). }
  rewrite Hlen. rewrite decide_False by lia.
  assert (Hpos : (0 < length (packed_samples (pack_steps infiles)))%nat).
  { destruct (packed_samples (pack_steps infiles)); [discriminate|cbn; lia]. }
  assert (Hnf : 0 ≤ nframes a).
  { pose proof (packed_samples_wf _ Hwf) as Hall.
    apply last_Some in Hlast as [l' Hl']. rewrite Hl' in Hall.
    apply Forall_app in Hall as [_ Hall]. apply Forall_cons in Hall as [[(H & _) _] _].
    lia. }
  rewrite Hsz.
  - unfold slot_offset. change (Z.of_nat 514) with 514. lia.
  - lia.
  - vm_compute. discriminate.
Qed.

Lemma pack_output_ends_after_last_sample_witness :
  ∃ st', pack ten_samples init = (Ok tt, st') ∧
    f_size (outfile st') =
      slot_offset (Z.of_nat (length (packed_samples (pack_steps ten_samples))) - 1)
      + 4 + nframes (Aiff 1 1 22050 1 [9]).
Proof.
  apply (pack_output_ends_after_last_sample ten_samples (Aiff 1 1 22050 1 [9])).
  - apply (bool_decide_eq_true_1 (Forall step_wf (pack_steps ten_samples))).
    vm_compute. reflexivity.
  - vm_compute. lia.
  - vm_compute. reflexivity.
Defined.

(** ** The names of the extracted samples *)

Lemma sample_file_names_NoDup : NoDup (sample_file_name <$> seqZ 0 512).
Proof.
  apply (bool_decide_eq_true_1 (NoDup (sample_file_name <$> seqZ 0 512))).
  vm_compute. reflexivity.
Qed.

Lemma path_join_inj dest a b : path_join dest a = path_join dest b → a = b.
Proof.
  unfold path_join.
  destruct (bool_decide (dest = "") || ends_with_slash dest); intros H.
  - exact (String.app_inj dest a b H).
  - apply (String.app_inj "/"), (String.app_inj dest). exact H.
Qed.

(** The sample files of the slots 0 to 511, the slots the command line
    lets [unpack] examine, go to 512 different paths of the destination
    directory: no extracted sample overwrites another. *)
Theorem unpack_paths_distinct dest f x y :
  0 ≤ x < 512 → 0 ≤ y < 512 → x ≠ y →
  ws_path (extracted dest f x) ≠ ws_path (extracted dest f y).
Proof.
  intros Hx Hy Hne Hp. cbn [extracted ws_path] in Hp.
  apply path_join_inj in Hp.
  assert (Hi : Z.to_nat x = Z.to_nat y); [|lia].
  apply (NoDup_lookup _ _ _ (sample_file_name x) sample_file_names_NoDup).
  - rewrite list_lookup_fmap, lookup_seqZ_lt by lia.
    cbn [fmap option_fmap option_map]. f_equal. f_equal. lia.
  - rewrite list_lookup_fmap, lookup_seqZ_lt by lia.
    cbn [fmap option_fmap option_map]. rewrite Hp. f_equal. f_equal. lia.
Qed.

Lemma unpack_paths_distinct_witness :
  ws_path (extracted "out" two_bit_archive 7)
    ≠ ws_path (extracted "out" two_bit_archive 107).
Proof.
  apply (unpack_paths_distinct "out" two_bit_archive 7 107); lia.
Defined.

(** ** What of the inputs reaches the archive *)

Lemma same_archive_trans s1 s2 s3 :
  same_archive s1 s2 → same_archive s2 s3 → same_archive s1 s3.
Proof.
  intros (?&?&?&?&?) (?&?&?&?&?). repeat split; congruence.
Qed.

Lemma add_lines_same_archive ms st : same_archive (add_lines ms st) st.
Proof. repeat split. Qed.

Lemma accept_same_archive p q a b s1 s2 :
  stored a = stored b → same_archive s1 s2 →
  same_archive (accept p a s1) (accept q b s2).
Proof.
  intros Hab (Hn & Ht & Hh & Ho & Hd). injection Hab as Hnf Hfr.
  unfold accept. repeat split; cbn [num_samples toc_offset header outfile dest_files];
    congruence.
Qed.

Lemma packed_same_archive l : ∀ l' s1 s2,
  stored <$> l = stored <$> l' → same_archive s1 s2 →
  same_archive (foldl (λ s a, accept "" a s) s1 l)
               (foldl (λ s a, accept "" a s) s2 l').
Proof.
  induction l as [|a l IH]; intros [|b l'] s1 s2 Hl Hs;
    try discriminate Hl; [exact Hs|].
  cbn [fmap list_fmap] in Hl. apply (inj2 cons) in Hl as [Hab Hl]. cbn [foldl].
  apply IH; [exact Hl|]. apply accept_same_archive; assumption.
Qed.

Lemma run_steps_same_archive steps : ∀ st,
  pack_inv st → Forall step_wf steps →
  num_samples st + Z.of_nat (length (packed_samples steps)) ≤ 3984 →
  ∃ st', for_each steps run_step st = (Ok tt, st') ∧
    same_archive st' (foldl (λ s a, accept "" a s) st (packed_samples steps)).
Proof.
  induction steps as [|s steps IH]; intros st Hinv Hwf Hcap.
  - exists st. split; [reflexivity|]. repeat split.
  - apply Forall_cons in Hwf as [Hs Hwf].
    cbn [for_each]. rewrite run_bind.
    unfold packed_samples in *. cbn [omap list_omap] in *.
    destruct (packed_sample s) as [a|] eqn:Hps.
    + cbn [length] in Hcap.
      destruct (run_step_accept s a st Hps Hinv Hs) as [p Hrun]; [lia|].
      rewrite Hrun. cbv beta iota.
      destruct (IH (accept p a st) (accept_pack_inv p a st Hinv) Hwf)
        as (st' & Hrun' & Hsame); [cbn [accept num_samples]; lia|].
      exists st'. split; [exact Hrun'|].
      apply (same_archive_trans _ _ _ Hsame). cbn [foldl].
      apply packed_same_archive; [reflexivity|].
      apply accept_same_archive; [reflexivity|]. repeat split.
    + destruct (run_step_skip s st Hps) as [ms Hrun]. rewrite Hrun.
      cbv beta iota.
      destruct (IH (add_lines ms st)) as (st' & Hrun' & Hsame);
        [destruct Hinv; split; assumption|exact Hwf|exact Hcap|].
      exists st'. split; [exact Hrun'|].
      apply (same_archive_trans _ _ _ Hsame).
      apply packed_same_archive; [reflexivity|apply add_lines_same_archive].
Qed.

(** The archive is made of the frame counts and the frames of the packed
    samples, in their order, and of nothing else: inputs that agree on
    these give the same output file, whatever the paths, the sample
    rates, and the files and directories that are skipped. *)
Theorem pack_archive_made_of_packed_samples infiles infiles' :
  Forall step_wf (pack_steps infiles) →
  Forall step_wf (pack_steps infiles') →
  (length (packed_samples (pack_steps infiles)) ≤ 3984)%nat →
  stored <$> packed_samples (pack_steps infiles)
    = stored <$> packed_samples (pack_steps infiles') →
  ∃ st1 st2, pack infiles init = (Ok tt, st1) ∧
    pack infiles' init = (Ok tt, st2) ∧
    outfile st1 = outfile st2 ∧ header st1 = header st2 ∧
    num_samples st1 = num_samples st2.
Proof.
  intros Hwf Hwf' Hcap Heq.
  assert (Hlen : length (packed_samples (pack_steps infiles'))
                 = length (packed_samples (pack_steps infiles))).
  { rewrite <- (length_fmap stored), <- Heq, length_fmap. reflexivity. }
  destruct (run_steps_same_archive (pack_steps infiles) pack_start
              pack_start_inv Hwf) as (s1 & Hrun1 & Hsame1).
  { change (num_samples pack_start) with 0. lia. }
  destruct (run_steps_same_archive (pack_steps infiles') pack_start
              pack_start_inv Hwf') as (s2 & Hrun2 & Hsame2).
  { change (num_samples pack_start) with 0. lia. }
  assert (Hsame : same_archive s1 s2).
  { apply (same_archive_trans _ _ _ Hsame1).
    destruct (packed_same_archive _ _ pack_start pack_start Heq)
      as (Hn & Ht & Hh & Ho & Hd); [repeat split|].
    destruct Hsame2 as (Hn2 & Ht2 & Hh2 & Ho2 & Hd2).
    repeat split; congruence. }
  destruct Hsame as (Hn & Ht & Hh & Ho & Hd).
  rewrite !pack_run, Hrun1, Hrun2.
  eexists _, _. split; [reflexivity|]. split; [reflexivity|].
  cbn [set_outfile outfile header num_samples].
  rewrite Hh, Ho. repeat split. exact Hn.
Qed.

Lemma pack_archive_made_of_packed_samples_witness :
  ∃ st1 st2, pack [("d", Some example_dir)] init = (Ok tt, st1) ∧
    pack (("x.aiff", Some (RegFile (one_frame 1))) :: barren_inputs ++
          [("y.aiff", Some (RegFile (Sample (Aiff 1 1 44100 1 [2]))));
           ("z.aiff", Some (RegFile (one_frame 3)))]) init = (Ok tt, st2) ∧
    outfile st1 = outfile st2 ∧ header st1 = header st2 ∧
    num_samples st1 = num_samples st2.
Proof.
  apply (pack_archive_made_of_packed_samples [("d", Some example_dir)]
    (("x.aiff", Some (RegFile (one_frame 1))) :: barren_inputs ++
     [("y.aiff", Some (RegFile (Sample (Aiff 1 1 44100 1 [2]))));
      ("z.aiff", Some (RegFile (one_frame 3)))])).
  - apply (bool_decide_eq_true_1
             (Forall step_wf (pack_steps [("d", Some example_dir)]))).
    vm_compute. reflexivity.
  - apply (bool_decide_eq_true_1 (Forall step_wf (pack_steps
      (("x.aiff", Some (RegFile (one_frame 1))) :: barren_inputs ++
       [("y.aiff", Some (RegFile (Sample (Aiff 1 1 44100 1 [2]))));
        ("z.aiff", Some (RegFile (one_frame 3)))])))).
    vm_compute. reflexivity.
  - vm_compute. lia.
  - vm_compute. reflexivity.
Defined.
